(** * The WireGuard receive path (receive.c): a shallow embedding

    The C functions of [receive.c] are written as state-passing Rocq
    functions over the device state.  Every call that leaves [receive.c]
    (cookie checker, noise handshake, timers, send path, routing table,
    socket, network stack) is recorded, in program order, in the [calls]
    log of the device state, so that what a path does and does not do can
    be read off the log.

    The build modelled is the one without DEBUG: the [#ifdef DEBUG] blocks
    are absent and [net_dbg_ratelimited] expands to nothing. *)

From Stdlib Require Import Ascii String ZArith List Bool Lia.
From Stdlib.Strings Require Import Byte.
Import ListNotations.

Local Open Scope Z_scope.

(** ** Machine integers *)

(** [size_t], [u64] and [unsigned long] are 64 bits wide on the x86_64
    target of the Makefile; [unsigned int] and [__u32] are 32 bits wide. *)
Definition BITS_PER_LONG : Z := 64.

Definition to_size_t (z : Z) : Z := z mod 2 ^ BITS_PER_LONG.
Definition to_uint (z : Z) : Z := z mod 2 ^ 32.
Definition to_u64 (z : Z) : Z := z mod 2 ^ 64.
Definition to_ulong (z : Z) : Z := z mod 2 ^ BITS_PER_LONG.

(** [++x] on an [unsigned long] counter. *)
Definition ulong_inc (x : Z) : Z := to_ulong (x + 1).

(** [htons]/[ntohs] on the little-endian host: swap the two bytes. *)
Definition swab16 (x : Z) : Z :=
  Z.lor (Z.shiftl (Z.land x 255) 8) (Z.land (Z.shiftr x 8) 255).
Definition htons := swab16.
Definition ntohs := swab16.

Definition byte_val (b : byte) : Z := Z.of_N (Byte.to_N b).

(** ** Constants of the kernel headers *)

Definition EINVAL : Z := 22.
Definition sizeof_iphdr : Z := 20.
Definition sizeof_ipv6hdr : Z := 40.
Definition sizeof_udphdr : Z := 8.
Definition ETH_P_IP : Z := 0x0800.
Definition ETH_P_IPV6 : Z := 0x86DD.
Definition CHECKSUM_UNNECESSARY : Z := 1.
Definition NET_RX_SUCCESS : Z := 0.
Definition NET_RX_DROP : Z := 1.

(** ** Constants of the absent headers [messages.h] and [wireguard.h] *)

(** Modelled from the spec: [messages.h] is not among the sources; the
    message header is "the first 4 bytes of the tunnel payload". *)
Definition sizeof_message_header : Z := 4.

(** Modelled from the spec: [messages.h] is not among the sources; the
    wire table gives 148 bytes for a handshake initiation. *)
Definition sizeof_message_handshake_initiation : Z := 148.

(** Modelled from the spec: [messages.h] is not among the sources; the
    wire table gives 92 bytes for a handshake response. *)
Definition sizeof_message_handshake_response : Z := 92.

(** Modelled from the spec: the defining header is not among the sources;
    the capacity of the handshake queue is "recommended: 4096". *)
Definition MAX_QUEUED_HANDSHAKES : Z := 4096.

(** Modelled from the spec: the defining header is not among the sources;
    the burst of the handshake worker is "recommended: 8". *)
Definition MAX_BURST_HANDSHAKES : Z := 8.

(** ** Data *)

(** [enum message_type]. *)
Inductive message_type : Set :=
| MESSAGE_INVALID
| MESSAGE_HANDSHAKE_INITIATION
| MESSAGE_HANDSHAKE_RESPONSE
| MESSAGE_HANDSHAKE_COOKIE
| MESSAGE_DATA.

(** [enum cookie_mac_state]. *)
Inductive cookie_mac_state : Set :=
| INVALID_MAC
| VALID_MAC_BUT_NO_COOKIE
| VALID_MAC_WITH_COOKIE.

Definition mac_state_eqb (a b : cookie_mac_state) : bool :=
  match a, b with
  | INVALID_MAC, INVALID_MAC => true
  | VALID_MAC_BUT_NO_COOKIE, VALID_MAC_BUT_NO_COOKIE => true
  | VALID_MAC_WITH_COOKIE, VALID_MAC_WITH_COOKIE => true
  | _, _ => false
  end.

(** A non-null [struct wireguard_peer *]; a nullable one is an [option]. *)
Definition peer_ptr : Set := positive.

Definition peer_ptr_eqb (a b : option peer_ptr) : bool :=
  match a, b with
  | None, None => true
  | Some p, Some q => Pos.eqb p q
  | _, _ => false
  end.

(** The bytes of a [struct sockaddr_storage]. *)
Definition sockaddr_storage : Set := list byte.

(** [struct sk_buff], with the fields [receive.c] reads or writes.  [head]
    is the buffer; [data], [network_header] and [transport_header] are
    offsets into it. *)
Record sk_buff : Set := mk_skb {
  skb_len : Z;                    (* skb->len, unsigned int *)
  head : list byte;
  data : Z;
  network_header : Z;
  transport_header : Z;
  skb_dev : bool;                 (* skb->dev has been set to the tunnel device *)
  ip_summed : Z;
  protocol : Z
}.

Definition set_skb_dev (skb : sk_buff) : sk_buff :=
  mk_skb (skb_len skb) (head skb) (data skb) (network_header skb)
         (transport_header skb) true (ip_summed skb) (protocol skb).

Definition set_ip_summed (v : Z) (skb : sk_buff) : sk_buff :=
  mk_skb (skb_len skb) (head skb) (data skb) (network_header skb)
         (transport_header skb) (skb_dev skb) v (protocol skb).

Definition set_protocol (v : Z) (skb : sk_buff) : sk_buff :=
  mk_skb (skb_len skb) (head skb) (data skb) (network_header skb)
         (transport_header skb) (skb_dev skb) (ip_summed skb) v.

(** The byte at offset [off] of the buffer. *)
Definition byte_at (skb : sk_buff) (off : Z) : Z :=
  if off <? 0 then 0 else byte_val (nth (Z.to_nat off) (head skb) x00).

(** [ip_hdr(skb)->version]: the high nibble of the first byte of the
    network header. *)
Definition ip_hdr_version (skb : sk_buff) : Z :=
  Z.land (Z.shiftr (byte_at skb (network_header skb)) 4) 15.

(** [udp_hdr(skb)->len] as stored (a [__be16] read on the little-endian
    host): source port, destination port, then the length. *)
Definition udp_hdr_len (skb : sk_buff) : Z :=
  Z.lor (byte_at skb (transport_header skb + 4))
        (Z.shiftl (byte_at skb (transport_header skb + 5)) 8).

(** The pointer difference [udp_hdr(skb) - skb->data] in bytes, stored in a
    [size_t]. *)
Definition udp_offset (skb : sk_buff) : Z :=
  to_size_t (transport_header skb - data skb).

(** The bytes from [skb->data + offset] on. *)
Definition skb_payload (skb : sk_buff) (offset : Z) : list byte :=
  skipn (Z.to_nat (data skb + offset)) (head skb).

(** Little-endian 32-bit field at byte offset [off] of a message. *)
Definition le32_at (msg : list byte) (off : nat) : Z :=
  Z.lor (byte_val (nth off msg x00))
   (Z.lor (Z.shiftl (byte_val (nth (off + 1) msg x00)) 8)
    (Z.lor (Z.shiftl (byte_val (nth (off + 2) msg x00)) 16)
           (Z.shiftl (byte_val (nth (off + 3) msg x00)) 24))).

(** Modelled from the spec: [messages.h] is not among the sources; in both
    handshake messages the [sender_index] is the 4-byte field that follows
    the 4-byte header. *)
Definition sender_index (msg : list byte) : Z := le32_at msg 4.

(** ** Calls that leave [receive.c] *)

Inductive event : Set :=
| net_err_ratelimited (fmt : string)
| BUG
| cookie_message_consume (msg : list byte)
| cookie_validate_packet_call (skb : sk_buff) (len : Z) (check_cookie : bool)
                              (ret : cookie_mac_state)
| packet_send_handshake_cookie (skb : sk_buff) (msg_len : Z) (idx : Z)
| noise_handshake_consume_initiation_call (msg : list byte) (ret : option peer_ptr)
| noise_handshake_consume_response_call (msg : list byte) (ret : option peer_ptr)
| noise_handshake_begin_session_call (peer : peer_ptr) (ret : bool)
| packet_send_handshake_response (peer : peer_ptr)
| packet_send_queue (peer : peer_ptr)
| timers_ephemeral_key_created (peer : peer_ptr)
| timers_handshake_complete (peer : peer_ptr)
| timers_data_received (peer : peer_ptr)
| timers_any_authorized_packet_received (peer : peer_ptr)
| socket_set_peer_addr (peer : peer_ptr) (addr : sockaddr_storage)
| routing_table_lookup_src_call (skb : sk_buff) (ret : option peer_ptr)
| peer_put_call (peer : option peer_ptr)
| netif_rx_call (skb : sk_buff) (ret : Z)
| dev_kfree_skb_call (skb : sk_buff)
| queue_work
| packet_consume_data (skb : sk_buff) (offset : Z).

(** ** Device state *)

(** [struct net_device_stats], the receive error counters. *)
Record net_device_stats : Set := mk_stats {
  rx_errors : Z;
  rx_length_errors : Z;
  rx_frame_errors : Z;
  rx_dropped : Z
}.

(** [struct pcpu_sw_netstats], the receive side. *)
Record pcpu_sw_netstats : Set := mk_tstats {
  rx_bytes : Z;
  rx_packets : Z
}.

(** The device, its peers' fields that the receive path touches, and the
    log of outgoing calls. *)
Record wireguard_device : Type := mk_wg {
  incoming_handshakes : list sk_buff;   (* the sk_buff_head, oldest first *)
  stats : net_device_stats;             (* netdev_pub(wg)->stats *)
  tstats : pcpu_sw_netstats;            (* netdev_pub(wg)->tstats *)
  last_rx : Z;                          (* netdev_pub(wg)->last_rx *)
  peer_rx_bytes : peer_ptr -> Z;        (* peer->rx_bytes *)
  peer_refcount : peer_ptr -> Z;        (* peer->refcount *)
  calls : list event
}.

Definition set_incoming_handshakes (q : list sk_buff) (wg : wireguard_device) :=
  mk_wg q (stats wg) (tstats wg) (last_rx wg) (peer_rx_bytes wg)
        (peer_refcount wg) (calls wg).

Definition set_stats (s : net_device_stats) (wg : wireguard_device) :=
  mk_wg (incoming_handshakes wg) s (tstats wg) (last_rx wg) (peer_rx_bytes wg)
        (peer_refcount wg) (calls wg).

Definition set_tstats (t : pcpu_sw_netstats) (wg : wireguard_device) :=
  mk_wg (incoming_handshakes wg) (stats wg) t (last_rx wg) (peer_rx_bytes wg)
        (peer_refcount wg) (calls wg).

Definition set_last_rx (j : Z) (wg : wireguard_device) :=
  mk_wg (incoming_handshakes wg) (stats wg) (tstats wg) j (peer_rx_bytes wg)
        (peer_refcount wg) (calls wg).

Definition set_peer_rx_bytes (f : peer_ptr -> Z) (wg : wireguard_device) :=
  mk_wg (incoming_handshakes wg) (stats wg) (tstats wg) (last_rx wg) f
        (peer_refcount wg) (calls wg).

Definition set_peer_refcount (f : peer_ptr -> Z) (wg : wireguard_device) :=
  mk_wg (incoming_handshakes wg) (stats wg) (tstats wg) (last_rx wg)
        (peer_rx_bytes wg) f (calls wg).

(** Record one outgoing call. *)
Definition call (e : event) (wg : wireguard_device) : wireguard_device :=
  mk_wg (incoming_handshakes wg) (stats wg) (tstats wg) (last_rx wg)
        (peer_rx_bytes wg) (peer_refcount wg) (calls wg ++ [e]).

(** Pointwise update of a per-peer field. *)
Definition upd (f : peer_ptr -> Z) (p : peer_ptr) (v : Z) : peer_ptr -> Z :=
  fun q => if Pos.eqb q p then v else f q.

(** [skb_queue_len]. *)
Definition skb_queue_len (q : list sk_buff) : Z := Z.of_nat (length q).

(** [skb_dequeue]: the oldest buffer, if any, and the device without it. *)
Definition skb_dequeue (wg : wireguard_device) : option (sk_buff * wireguard_device) :=
  match incoming_handshakes wg with
  | [] => None
  | skb :: rest => Some (skb, set_incoming_handshakes rest wg)
  end.

(** [skb_queue_tail]. *)
Definition skb_queue_tail (skb : sk_buff) (wg : wireguard_device) : wireguard_device :=
  set_incoming_handshakes (incoming_handshakes wg ++ [skb]) wg.

Definition dev_kfree_skb (skb : sk_buff) (wg : wireguard_device) : wireguard_device :=
  call (dev_kfree_skb_call skb) wg.

(** Modelled from the spec: the routing table and the handshake consumers
    are not among the sources; "every peer handle returned by a lookup or
    consumer function carries one reference", so the count of the returned
    peer goes up by one. *)
Definition peer_get (p : option peer_ptr) (wg : wireguard_device) : wireguard_device :=
  match p with
  | None => wg
  | Some q => set_peer_refcount (upd (peer_refcount wg) q (peer_refcount wg q + 1)) wg
  end.

(** Modelled from the spec: [peer.c] is not among the sources; [peer_put]
    is the release of one reference.  [receive.c] passes it a handle that
    may be NULL (the result of the routing lookup), for which nothing is
    released. *)
Definition peer_put (p : option peer_ptr) (wg : wireguard_device) : wireguard_device :=
  let wg := call (peer_put_call p) wg in
  match p with
  | None => wg
  | Some q => set_peer_refcount (upd (peer_refcount wg) q (peer_refcount wg q - 1)) wg
  end.

(** Line 96: the value of the local [under_load], from the queue as it is
    when [receive_handshake_packet] runs. *)
Definition under_load (wg : wireguard_device) : bool :=
  skb_queue_len (incoming_handshakes wg) >=? MAX_QUEUED_HANDSHAKES ÷ 2.

(** ** Collaborators

    What the functions outside [receive.c] answer.  Each is consulted at
    most once for a given buffer on any path below, so a function of the
    arguments is all a path can observe of it. *)
Class Collaborators : Type := {
  pskb_may_pull : sk_buff -> Z -> bool;           (* the length is an unsigned int *)
  skb_linearize : sk_buff -> option sk_buff;      (* None: a negative return *)
  socket_addr_from_skb : sk_buff -> option sockaddr_storage;  (* Some: returned 0 *)
  message_determine_type : list byte -> Z -> message_type;
  cookie_validate_packet : sk_buff -> list byte -> Z -> bool -> cookie_mac_state;
  noise_handshake_consume_initiation : list byte -> option peer_ptr;
  noise_handshake_consume_response : list byte -> option peer_ptr;
  noise_handshake_begin_session : peer_ptr -> bool;
  routing_table_lookup_src : sk_buff -> option peer_ptr;
  netif_rx : sk_buff -> Z;
  jiffies : Z
}.

Section Receive.

Context {K : Collaborators}.

(** ** [rx_stats] *)
Definition rx_stats (peer : peer_ptr) (len : Z) (wg : wireguard_device) : wireguard_device :=
  let wg := set_tstats (mk_tstats (to_u64 (rx_bytes (tstats wg) + len))
                                  (to_u64 (rx_packets (tstats wg) + 1))) wg in
  set_peer_rx_bytes (upd (peer_rx_bytes wg) peer (to_u64 (peer_rx_bytes wg peer + len))) wg.

(** ** [update_latest_addr] *)
Definition update_latest_addr (peer : peer_ptr) (skb : sk_buff) (wg : wireguard_device)
  : wireguard_device :=
  match socket_addr_from_skb skb with
  | Some addr => call (socket_set_peer_addr peer addr) wg
  | None => wg
  end.

(** ** [skb_data_offset]

    [inl EINVAL] is the return of [-EINVAL]; [inr (data_offset, data_len)]
    is the return of 0 with the two out-parameters. *)
Definition skb_data_offset (skb : sk_buff) : Z + (Z * Z) :=
  if skb_len skb <? sizeof_iphdr then inl EINVAL
  else if negb (ip_hdr_version skb =? 4) && negb (ip_hdr_version skb =? 6) then inl EINVAL
  else if (ip_hdr_version skb =? 6) && (skb_len skb <? sizeof_ipv6hdr) then inl EINVAL
  else
    let data_offset := udp_offset skb in
    if to_size_t (data_offset + sizeof_udphdr) >? skb_len skb then inl EINVAL
    else
      let data_len := ntohs (udp_hdr_len skb) in
      if data_len <? sizeof_udphdr then inl EINVAL
      else if data_len >? to_size_t (skb_len skb - data_offset) then inl EINVAL
      else
        let data_len := to_size_t (data_len - sizeof_udphdr) in
        let data_offset := to_size_t (transport_header skb + sizeof_udphdr - data skb) in
        if negb (pskb_may_pull skb (to_uint (to_size_t (data_offset + sizeof_message_header))))
        then inl EINVAL
        else inr (data_offset, data_len).

(** ** [receive_handshake_packet] *)

(** Lines 147-152: the bookkeeping after the switch, where [peer] is not
    NULL. *)
Definition handshake_bookkeeping (peer : peer_ptr) (len : Z) (skb : sk_buff)
           (wg : wireguard_device) : wireguard_device :=
  let wg := rx_stats peer len wg in
  let wg := call (timers_any_authorized_packet_received peer) wg in
  let wg := update_latest_addr peer skb wg in
  peer_put (Some peer) wg.

(** Lines 107-152: the switch on the message type, entered once
    [packet_needs_cookie] is known, and what follows it.

    The default case is [net_err_ratelimited(...); BUG(); return;].  In the
    kernel [BUG()] does not return: a log that holds [BUG] is the log of the
    kernel up to that call, and what this model does after it (the worker
    freeing the buffer and going on) is not what the kernel does.  What is
    stated below about the calls that follow a handler is stated for runs
    whose log holds no [BUG]. *)
Definition handshake_switch (message_type : message_type) (packet_needs_cookie : bool)
           (wg : wireguard_device) (data : list byte) (len : Z) (skb : sk_buff)
  : wireguard_device :=
  match message_type with
  | MESSAGE_HANDSHAKE_INITIATION =>
    if packet_needs_cookie then
      call (packet_send_handshake_cookie skb sizeof_message_handshake_initiation
                                         (sender_index data)) wg
    else
      let peer := noise_handshake_consume_initiation data in
      let wg := peer_get peer (call (noise_handshake_consume_initiation_call data peer) wg) in
      match peer with
      | None => wg
      | Some p =>
        let wg := update_latest_addr p skb wg in
        let wg := call (packet_send_handshake_response p) wg in
        handshake_bookkeeping p len skb wg
      end
  | MESSAGE_HANDSHAKE_RESPONSE =>
    if packet_needs_cookie then
      call (packet_send_handshake_cookie skb sizeof_message_handshake_response
                                         (sender_index data)) wg
    else
      let peer := noise_handshake_consume_response data in
      let wg := peer_get peer (call (noise_handshake_consume_response_call data peer) wg) in
      match peer with
      | None => wg
      | Some p =>
        let began := noise_handshake_begin_session p in
        let wg := call (noise_handshake_begin_session_call p began) wg in
        let wg :=
          if began then
            let wg := call (timers_ephemeral_key_created p) wg in
            let wg := call (timers_handshake_complete p) wg in
            call (packet_send_queue p) wg
          else wg in
        handshake_bookkeeping p len skb wg
      end
  | _ =>
    let wg := call (net_err_ratelimited
      ("Somehow a wrong type of packet wound up in the handshake queue from %pISpfsc!"
       ++ String "010"%char EmptyString)) wg in
    call BUG wg
  end.

Definition receive_handshake_packet (wg : wireguard_device) (data : list byte) (len : Z)
           (skb : sk_buff) : wireguard_device :=
  let message_type := message_determine_type data len in
  match message_type with
  | MESSAGE_HANDSHAKE_COOKIE => call (cookie_message_consume data) wg
  | _ =>
    let under_load := under_load wg in
    let mac_state := cookie_validate_packet skb data len under_load in
    let wg := call (cookie_validate_packet_call skb len under_load mac_state) wg in
    if (under_load && mac_state_eqb mac_state VALID_MAC_WITH_COOKIE)
       || (negb under_load && mac_state_eqb mac_state VALID_MAC_BUT_NO_COOKIE)
    then handshake_switch message_type false wg data len skb
    else if under_load && mac_state_eqb mac_state VALID_MAC_BUT_NO_COOKIE
    then handshake_switch message_type true wg data len skb
    else wg
  end.

(** ** [packet_process_queued_handshake_packets] *)

(** Lines 163-165: the body of the loop, for the buffer just dequeued. *)
Definition process_dequeued (skb : sk_buff) (wg : wireguard_device) : wireguard_device :=
  let wg :=
    match skb_data_offset skb with
    | inr (offset, len) => receive_handshake_packet wg (skb_payload skb offset) len skb
    | inl _ => wg
    end in
  dev_kfree_skb skb wg.

(** The loop.  [remaining] is [MAX_BURST_HANDSHAKES - num_processed]: the
    loop leaves when the queue is empty, or re-queues the work and returns
    when the incremented [num_processed] reaches [MAX_BURST_HANDSHAKES]. *)
Fixpoint handshake_burst (remaining : nat) (wg : wireguard_device) : wireguard_device :=
  match remaining with
  | O => wg
  | S remaining' =>
    match skb_dequeue wg with
    | None => wg
    | Some (skb, wg) =>
      let wg := process_dequeued skb wg in
      match remaining' with
      | O => call queue_work wg
      | S _ => handshake_burst remaining' wg
      end
    end
  end.

Definition packet_process_queued_handshake_packets (wg : wireguard_device)
  : wireguard_device :=
  handshake_burst (Z.to_nat MAX_BURST_HANDSHAKES) wg.

(** ** [receive_data_packet] *)

(** The label [continue_processing]. *)
Definition continue_processing (peer : peer_ptr) (addr : sockaddr_storage)
           (wg : wireguard_device) : wireguard_device :=
  let wg := call (timers_any_authorized_packet_received peer) wg in
  let wg := call (socket_set_peer_addr peer addr) wg in
  peer_put (Some peer) wg.

(** The label [packet_processed], which falls through to
    [continue_processing]. *)
Definition packet_processed (skb : sk_buff) (peer : peer_ptr) (addr : sockaddr_storage)
           (wg : wireguard_device) : wireguard_device :=
  continue_processing peer addr (dev_kfree_skb skb wg).

(** [++dev->stats.rx_errors; ++dev->stats.rx_length_errors;] *)
Definition count_length_error (wg : wireguard_device) : wireguard_device :=
  set_stats (mk_stats (ulong_inc (rx_errors (stats wg)))
                      (ulong_inc (rx_length_errors (stats wg)))
                      (rx_frame_errors (stats wg))
                      (rx_dropped (stats wg))) wg.

(** [++dev->stats.rx_errors; ++dev->stats.rx_frame_errors;] *)
Definition count_frame_error (wg : wireguard_device) : wireguard_device :=
  set_stats (mk_stats (ulong_inc (rx_errors (stats wg)))
                      (rx_length_errors (stats wg))
                      (ulong_inc (rx_frame_errors (stats wg)))
                      (rx_dropped (stats wg))) wg.

(** [++dev->stats.rx_dropped;] *)
Definition count_dropped (wg : wireguard_device) : wireguard_device :=
  set_stats (mk_stats (rx_errors (stats wg))
                      (rx_length_errors (stats wg))
                      (rx_frame_errors (stats wg))
                      (ulong_inc (rx_dropped (stats wg)))) wg.

(** Lines 229-252: from [timers_data_received] to the hand-over to the
    network stack, for a buffer whose protocol has been set. *)
Definition receive_routed (skb : sk_buff) (peer : peer_ptr) (addr : sockaddr_storage)
           (wg : wireguard_device) : wireguard_device :=
  let wg := call (timers_data_received peer) wg in
  let routed_peer := routing_table_lookup_src skb in
  let wg := peer_get routed_peer (call (routing_table_lookup_src_call skb routed_peer) wg) in
  let wg := peer_put routed_peer wg in
  if negb (peer_ptr_eqb routed_peer (Some peer)) then
    packet_processed skb peer addr (count_frame_error wg)
  else
    let wg := set_last_rx jiffies wg in
    let ret := netif_rx skb in
    let wg := call (netif_rx_call skb ret) wg in
    let wg :=
      if ret =? NET_RX_SUCCESS then rx_stats peer (skb_len skb) wg
      else count_dropped wg in
    continue_processing peer addr wg.

Definition receive_data_packet (wg : wireguard_device) (skb : sk_buff)
           (peer : option peer_ptr) (addr : option sockaddr_storage)
           (used_new_key : bool) (err : Z) : wireguard_device :=
  match peer, addr with
  | Some peer, Some addr =>
    if err <? 0 then dev_kfree_skb skb wg
    else
      let wg := if used_new_key then call (packet_send_queue peer) wg else wg in
      if skb_len skb =? 0 then packet_processed skb peer addr wg
      else if skb_len skb <? sizeof_iphdr then
        packet_processed skb peer addr (count_length_error wg)
      else if negb (pskb_may_pull skb 1) then
        packet_processed skb peer addr (count_length_error wg)
      else
        let skb := set_ip_summed CHECKSUM_UNNECESSARY (set_skb_dev skb) in
        if ip_hdr_version skb =? 4 then
          receive_routed (set_protocol (htons ETH_P_IP) skb) peer addr wg
        else if ip_hdr_version skb =? 6 then
          if skb_len skb <? sizeof_ipv6hdr then
            packet_processed skb peer addr (count_length_error wg)
          else receive_routed (set_protocol (htons ETH_P_IPV6) skb) peer addr wg
        else packet_processed skb peer addr (count_length_error wg)
  | _, _ => dev_kfree_skb skb wg
  end.

(** ** [packet_receive]

    [packet_consume_data] hands the buffer to the decryption pipeline, which
    calls [receive_data_packet] back when it is done. *)
Definition packet_receive (wg : wireguard_device) (skb : sk_buff) : wireguard_device :=
  match skb_data_offset skb with
  | inl _ => dev_kfree_skb skb wg
  | inr (offset, len) =>
    match message_determine_type (skb_payload skb offset) len with
    | MESSAGE_HANDSHAKE_INITIATION
    | MESSAGE_HANDSHAKE_RESPONSE
    | MESSAGE_HANDSHAKE_COOKIE =>
      if skb_queue_len (incoming_handshakes wg) >? MAX_QUEUED_HANDSHAKES then
        dev_kfree_skb skb wg
      else
        match skb_linearize skb with
        | None => dev_kfree_skb skb wg
        | Some skb =>
          let wg := skb_queue_tail skb wg in
          call queue_work wg
        end
    | MESSAGE_DATA => call (packet_consume_data skb offset) wg
    | MESSAGE_INVALID => dev_kfree_skb skb wg
    end
  end.

End Receive.

(** ** Reading the log *)

(** The calls made between two states of the device. *)
Definition new_calls (before after : wireguard_device) : list event :=
  skipn (length (calls before)) (calls after).

Definition count_calls (f : event -> bool) (l : list event) : nat :=
  length (filter f l).

Definition is_netif_rx (e : event) : bool :=
  match e with netif_rx_call _ _ => true | _ => false end.

Definition is_kfree_skb (e : event) : bool :=
  match e with dev_kfree_skb_call _ => true | _ => false end.

Definition is_peer_put (e : event) : bool :=
  match e with peer_put_call _ => true | _ => false end.

Definition is_timers_data_received (e : event) : bool :=
  match e with timers_data_received _ => true | _ => false end.

Definition is_timers_any_authorized (e : event) : bool :=
  match e with timers_any_authorized_packet_received _ => true | _ => false end.

Definition is_cookie_reply (e : event) : bool :=
  match e with packet_send_handshake_cookie _ _ _ => true | _ => false end.

(** The calls through which the handshake state of a peer can move. *)
Definition is_handshake_transition (e : event) : bool :=
  match e with
  | noise_handshake_consume_initiation_call _ _
  | noise_handshake_consume_response_call _ _
  | noise_handshake_begin_session_call _ _ => true
  | _ => false
  end.

Definition is_addr_update (e : event) : bool :=
  match e with socket_set_peer_addr _ _ => true | _ => false end.

Definition is_routing_lookup (e : event) : bool :=
  match e with routing_table_lookup_src_call _ _ => true | _ => false end.

(** Line 179: the condition of the early return of [receive_data_packet],
    [err < 0 || !peer || !addr]. *)
Definition early_return (peer : option peer_ptr) (addr : option sockaddr_storage)
           (err : Z) : bool :=
  (err <? 0)
  || match peer with Some _ => false | None => true end
  || match addr with Some _ => false | None => true end.

(** ** The decision of the handshake worker *)

Inductive handshake_action : Set := Drop | Accept | NeedsCookie.


(** The same matrix with the row (not under load, valid MAC with cookie)
    turned into a drop. *)
Definition decision_matrix_amended (under_load : bool) (mac_state : cookie_mac_state)
  : handshake_action :=
  match under_load, mac_state with
  | _, INVALID_MAC => Drop
  | false, VALID_MAC_BUT_NO_COOKIE => Accept
  | false, VALID_MAC_WITH_COOKIE => Drop
  | true, VALID_MAC_WITH_COOKIE => Accept
  | true, VALID_MAC_BUT_NO_COOKIE => NeedsCookie
  end.

Section Observations.

Context {K : Collaborators}.

(** The device right after the cookie checker has been asked about the
    message. *)
Definition after_validation (wg : wireguard_device) (data : list byte) (len : Z)
           (skb : sk_buff) : wireguard_device :=
  call (cookie_validate_packet_call skb len (under_load wg)
          (cookie_validate_packet skb data len (under_load wg))) wg.


(** The decrypted buffer as [receive_data_packet] prepares it for the
    routing lookup and the network stack. *)
Definition inner_skb (skb : sk_buff) : sk_buff :=
  set_protocol (htons (if ip_hdr_version skb =? 4 then ETH_P_IP else ETH_P_IPV6))
               (set_ip_summed CHECKSUM_UNNECESSARY (set_skb_dev skb)).

(** The decrypted buffer holds an inner IP header, so that
    [receive_data_packet] reaches the routing lookup with it. *)
Definition has_inner_ip_header (skb : sk_buff) : Prop :=
  sizeof_iphdr <= skb_len skb /\
  pskb_may_pull skb 1 = true /\
  (ip_hdr_version skb = 4 \/
   (ip_hdr_version skb = 6 /\ sizeof_ipv6hdr <= skb_len skb)).

End Observations.

(** ** The outer-frame parser in the words of the specification *)

(** The UDP length field in host order. *)
Definition udp_length (skb : sk_buff) : Z := ntohs (udp_hdr_len skb).

(** The length of the buffer and the offset of its UDP header fit a C
    [int], and the UDP header does not lie before [skb->data]. *)
Definition skb_in_range (skb : sk_buff) : Prop :=
  0 <= skb_len skb < 2 ^ 31 /\
  0 <= transport_header skb - data skb < 2 ^ 31.

(** ** Further readings of the log *)

Definition is_queue_work (e : event) : bool :=
  match e with queue_work => true | _ => false end.

Definition is_consume_data (e : event) : bool :=
  match e with packet_consume_data _ _ => true | _ => false end.

Definition is_send_queue (e : event) : bool :=
  match e with packet_send_queue _ => true | _ => false end.

Definition is_handshake_response (e : event) : bool :=
  match e with packet_send_handshake_response _ => true | _ => false end.

Definition is_BUG (e : event) : bool :=
  match e with BUG => true | _ => false end.

(** The calls that belong to the data path and to the ownership of
    buffers: none of them is made while a handshake message is handled. *)
Definition is_buffer_or_data_call (e : event) : bool :=
  match e with
  | dev_kfree_skb_call _
  | netif_rx_call _ _
  | queue_work
  | packet_consume_data _ _
  | routing_table_lookup_src_call _ _
  | timers_data_received _ => true
  | _ => false
  end.

(** [update_latest_addr(peer, skb)] as calls: one address update when the
    address can be read from the buffer. *)
Definition latest_addr_calls {K : Collaborators} (peer : peer_ptr) (skb : sk_buff)
  : list event :=
  match socket_addr_from_skb skb with
  | Some addr => [socket_set_peer_addr peer addr]
  | None => []
  end.

(** ** Sequences of entries into the receive path *)

(** The three ways into [receive.c]: a datagram from the socket, a run of
    the handshake work item, and the completion of a decryption. *)
Inductive entry : Type :=
| datagram (skb : sk_buff)
| handshake_work
| decrypted (skb : sk_buff) (peer : option peer_ptr) (addr : option sockaddr_storage)
            (used_new_key : bool) (err : Z).

Definition enter {K : Collaborators} (wg : wireguard_device) (e : entry)
  : wireguard_device :=
  match e with
  | datagram skb => packet_receive wg skb
  | handshake_work => packet_process_queued_handshake_packets wg
  | decrypted skb peer addr used_new_key err =>
    receive_data_packet wg skb peer addr used_new_key err
  end.

Definition run {K : Collaborators} (es : list entry) (wg : wireguard_device)
  : wireguard_device :=
  fold_left enter es wg.

(** ** Scripted collaborators, for running the functions on concrete input *)

(** Modelled from the spec: [message_determine_type] of the absent
    [messages.h], as the message classifier describes it. *)
Definition classify (msg : list byte) (len : Z) : message_type :=
  if len <? sizeof_message_header then MESSAGE_INVALID
  else match msg with
       | x01 :: _ =>
         if len =? sizeof_message_handshake_initiation
         then MESSAGE_HANDSHAKE_INITIATION else MESSAGE_INVALID
       | x02 :: _ =>
         if len =? sizeof_message_handshake_response
         then MESSAGE_HANDSHAKE_RESPONSE else MESSAGE_INVALID
       | x03 :: _ => if len =? 64 then MESSAGE_HANDSHAKE_COOKIE else MESSAGE_INVALID
       | x04 :: _ => if len >=? 32 then MESSAGE_DATA else MESSAGE_INVALID
       | _ => MESSAGE_INVALID
       end.

(** Collaborators that answer as scripted: the verdict of the cookie
    checker, the peer found by the handshake consumers, whether the session
    begins, the peer the routing table finds and the answer of the network
    stack.  Buffers are linear, so a pull succeeds exactly within the
    length of the buffer. *)
Definition scripted (mac : cookie_mac_state) (consumed : option peer_ptr) (began : bool)
           (routed : option peer_ptr) (rx : Z) : Collaborators :=
  {| pskb_may_pull := fun skb n => n <=? skb_len skb;
     skb_linearize := fun skb => Some skb;
     socket_addr_from_skb := fun skb => Some (firstn 4 (skipn 12 (head skb)));
     message_determine_type := classify;
     cookie_validate_packet := fun _ _ _ _ => mac;
     noise_handshake_consume_initiation := fun _ => consumed;
     noise_handshake_consume_response := fun _ => consumed;
     noise_handshake_begin_session := fun _ => began;
     routing_table_lookup_src := fun _ => routed;
     netif_rx := fun _ => rx;
     jiffies := 1000 |}.

(** A device with an empty handshake queue and all counters at zero. *)
Definition fresh_device : wireguard_device :=
  mk_wg [] (mk_stats 0 0 0 0) (mk_tstats 0 0) 0 (fun _ => 0) (fun _ => 1) [].

(** An IPv4/UDP datagram from 10.0.0.2 carrying a 148-byte handshake
    initiation with sender index 42; [skb->data] is at the IP header. *)
Definition initiation_datagram : sk_buff :=
  mk_skb 176
    ([x45; x00; x00; xb0; x00; x00; x00; x00; x40; x11; x00; x00;
      x0a; x00; x00; x02; x0a; x00; x00; x01] ++
     [xca; x6c; xca; x6c; x00; x9c; x00; x00] ++
     [x01; x00; x00; x00; x2a; x00; x00; x00] ++ repeat x00 140)
    0 0 20 false 0 0.

(** The same datagram with the UDP length field set to 7. *)
Definition short_udp_datagram : sk_buff :=
  mk_skb 176
    ([x45; x00; x00; xb0; x00; x00; x00; x00; x40; x11; x00; x00;
      x0a; x00; x00; x02; x0a; x00; x00; x01] ++
     [xca; x6c; xca; x6c; x00; x07; x00; x00] ++
     [x01; x00; x00; x00; x2a; x00; x00; x00] ++ repeat x00 140)
    0 0 20 false 0 0.

(** A decrypted inner IPv4 packet of 28 bytes from 192.168.4.2. *)
Definition inner_ipv4_packet : sk_buff :=
  mk_skb 28
    [x45; x00; x00; x1c; x00; x00; x00; x00; x40; x01; x00; x00;
     xc0; xa8; x04; x02; xc0; xa8; x04; x01;
     x08; x00; xf7; xff; x00; x00; x00; x00]
    0 0 20 false 0 0.

(** A decrypted keep-alive: no plaintext at all. *)
Definition keepalive_packet : sk_buff := mk_skb 0 [] 0 0 0 false 0 0.

(** The outer address the decryption pipeline reports for a data packet. *)
Definition outer_addr : sockaddr_storage := [x0a; x00; x00; x02].

(** The sender holds a cookie: the cookie checker answers "valid MAC with
    cookie" when it is asked to check the cookie, and "valid MAC but no
    cookie" when it is not; the consumers find peer 1. *)
Definition cookie_holder_script : Collaborators :=
  {| pskb_may_pull := fun skb n => n <=? skb_len skb;
     skb_linearize := fun skb => Some skb;
     socket_addr_from_skb := fun skb => Some (firstn 4 (skipn 12 (head skb)));
     message_determine_type := classify;
     cookie_validate_packet := fun _ _ _ check_cookie =>
       if check_cookie then VALID_MAC_WITH_COOKIE else VALID_MAC_BUT_NO_COOKIE;
     noise_handshake_consume_initiation := fun _ => Some 1%positive;
     noise_handshake_consume_response := fun _ => Some 1%positive;
     noise_handshake_begin_session := fun _ => true;
     routing_table_lookup_src := fun _ => None;
     netif_rx := fun _ => NET_RX_SUCCESS;
     jiffies := 1000 |}.

(** The cookie checker answers "valid MAC but no cookie"; the consumers
    find peer 1. *)
Definition no_cookie_script : Collaborators :=
  scripted VALID_MAC_BUT_NO_COOKIE (Some 1%positive) true None NET_RX_SUCCESS.

(** The routing table finds peer [routed] for every source address; the
    network stack takes every packet. *)
Definition routing_script (routed : option peer_ptr) : Collaborators :=
  scripted INVALID_MAC None false routed NET_RX_SUCCESS.

(** A device whose handshake queue holds [n] copies of the initiation. *)
Definition device_with_queue (n : nat) : wireguard_device :=
  set_incoming_handshakes (repeat initiation_datagram n) fresh_device.

(** * Properties *)

(** ** Arithmetic of the machine integers *)

Lemma to_size_t_small (z : Z) : 0 <= z < 2 ^ 64 -> to_size_t z = z.
Proof. intros H. unfold to_size_t, BITS_PER_LONG. now apply Z.mod_small. Qed.

Lemma to_uint_small (z : Z) : 0 <= z < 2 ^ 32 -> to_uint z = z.
Proof. intros H. unfold to_uint. now apply Z.mod_small. Qed.

Lemma ulong_inc_no_wrap (x : Z) : 0 <= x < 2 ^ 64 - 1 -> ulong_inc x = x + 1.
Proof.
  intros H. unfold ulong_inc, to_ulong, BITS_PER_LONG.
  apply Z.mod_small. lia.
Qed.

Lemma land_255_range (x : Z) : 0 <= Z.land x 255 < 256.
Proof.
  change 255 with (Z.ones 8). rewrite Z.land_ones by lia.
  change (2 ^ 8) with 256. apply Z.mod_pos_bound. lia.
Qed.

Lemma swab16_range (x : Z) : 0 <= swab16 x < 65536.
Proof.
  unfold swab16.
  pose proof (land_255_range x) as Ha.
  pose proof (land_255_range (Z.shiftr x 8)) as Hb.
  set (a := Z.land x 255) in *. set (b := Z.land (Z.shiftr x 8) 255) in *.
  rewrite Z.shiftl_mul_pow2 by lia. change (2 ^ 8) with 256.
  pose proof (Z.add_lor_land (a * 256) b) as Hsum.
  assert (0 <= Z.land (a * 256) b) by (apply Z.land_nonneg; lia).
  assert (0 <= Z.lor (a * 256) b) by (apply Z.lor_nonneg; lia).
  lia.
Qed.

Lemma udp_length_range (skb : sk_buff) : 0 <= udp_length skb < 65536.
Proof. apply swab16_range. Qed.

Example udp_length_initiation : udp_length initiation_datagram = 156.
Proof. reflexivity. Qed.

Example ip_hdr_version_initiation : ip_hdr_version initiation_datagram = 4.
Proof. reflexivity. Qed.

Example sender_index_initiation :
  sender_index (skb_payload initiation_datagram 28) = 42.
Proof. reflexivity. Qed.

(** ** The outer-frame parser *)

Section Parser.

Context {K : Collaborators}.

(** The parser fails only with [-EINVAL]. *)
Lemma skb_data_offset_errno (skb : sk_buff) (e : Z) :
  skb_data_offset skb = inl e -> e = EINVAL.
Proof.
  unfold skb_data_offset.
  repeat match goal with
         | |- context [if ?c then _ else _] => destruct c
         end; congruence.
Qed.

(** The checks as the code computes them, in [size_t] and [unsigned int]
    arithmetic, for any buffer. *)
Lemma skb_data_offset_checks_wrapping (skb : sk_buff) :
  skb_data_offset skb = inl EINVAL <->
    skb_len skb < 20
    \/ (ip_hdr_version skb <> 4 /\ ip_hdr_version skb <> 6)
    \/ (ip_hdr_version skb = 6 /\ skb_len skb < 40)
    \/ to_size_t (udp_offset skb + 8) > skb_len skb
    \/ udp_length skb < 8
    \/ udp_length skb > to_size_t (skb_len skb - udp_offset skb)
    \/ pskb_may_pull skb
         (to_uint (to_size_t (to_size_t (transport_header skb + 8 - data skb) + 4)))
       = false.
Proof.
  unfold skb_data_offset, sizeof_iphdr, sizeof_ipv6hdr, sizeof_udphdr,
    sizeof_message_header.
  fold (udp_length skb).
  destruct (Z.ltb_spec (skb_len skb) 20) as [H1 | H1]; cbn [negb andb].
  { split; [ intros _; lia | reflexivity ]. }
  destruct (Z.eqb_spec (ip_hdr_version skb) 4) as [H4 | H4];
    destruct (Z.eqb_spec (ip_hdr_version skb) 6) as [H6 | H6]; cbn [negb andb];
    try (split; [ intros _; lia | reflexivity ]).
  all: try (destruct (Z.ltb_spec (skb_len skb) 40) as [H40 | H40];
            [ split; [ intros _; lia | reflexivity ] | ]).
  all: destruct (Z.gtb_spec (to_size_t (udp_offset skb + 8)) (skb_len skb))
    as [H8 | H8]; [ split; [ intros _; lia | reflexivity ] | ].
  all: destruct (Z.ltb_spec (udp_length skb) 8) as [Hu | Hu];
    [ split; [ intros _; lia | reflexivity ] | ].
  all: destruct (Z.gtb_spec (udp_length skb) (to_size_t (skb_len skb - udp_offset skb)))
    as [Hr | Hr]; [ split; [ intros _; lia | reflexivity ] | ].
  all: destruct (pskb_may_pull skb _) eqn:Hpull; cbn [negb].
  all: try (exfalso; lia).
  all: first
    [ split; [ discriminate | intros Hor; exfalso; intuition (lia || congruence) ]
    | split; [ intros _; repeat right; reflexivity | reflexivity ] ].
Qed.

(** On a buffer whose length and UDP offset fit a C [int], the checks in
    plain integer arithmetic. *)
Lemma skb_data_offset_checks_in_range (skb : sk_buff) (Hrange : skb_in_range skb) :
  let off := transport_header skb - data skb in
  (skb_data_offset skb = inl EINVAL <->
     skb_len skb < 20
     \/ (ip_hdr_version skb <> 4 /\ ip_hdr_version skb <> 6)
     \/ (ip_hdr_version skb = 6 /\ skb_len skb < 40)
     \/ off + 8 > skb_len skb
     \/ udp_length skb < 8
     \/ udp_length skb > skb_len skb - off
     \/ pskb_may_pull skb (off + 8 + 4) = false)
  /\ (forall data_offset data_len,
        skb_data_offset skb = inr (data_offset, data_len) ->
        data_offset = off + 8 /\ data_len = udp_length skb - 8).
Proof.
  destruct Hrange as [Hlen Hoff].
  pose proof (udp_length_range skb) as Hudp.
  intros off. subst off.
  unfold skb_data_offset, udp_offset, sizeof_iphdr, sizeof_ipv6hdr, sizeof_udphdr,
    sizeof_message_header.
  fold (udp_length skb).
  rewrite (to_size_t_small (transport_header skb - data skb)) by lia.
  rewrite (to_size_t_small (transport_header skb - data skb + 8)) by lia.
  replace (transport_header skb + 8 - data skb)
    with (transport_header skb - data skb + 8) by lia.
  rewrite (to_size_t_small (transport_header skb - data skb + 8)) by lia.
  rewrite (to_size_t_small (transport_header skb - data skb + 8 + 4)) by lia.
  rewrite (to_uint_small (transport_header skb - data skb + 8 + 4)) by lia.
  destruct (Z.ltb_spec (skb_len skb) 20) as [H1 | H1]; cbn [negb andb].
  { split; [ split; [ intros _; lia | reflexivity ] | discriminate ]. }
  destruct (Z.eqb_spec (ip_hdr_version skb) 4) as [H4 | H4];
    destruct (Z.eqb_spec (ip_hdr_version skb) 6) as [H6 | H6]; cbn [negb andb];
    try (split; [ split; [ intros _; lia | reflexivity ] | discriminate ]).
  all: try (destruct (Z.ltb_spec (skb_len skb) 40) as [H40 | H40];
            [ split; [ split; [ intros _; lia | reflexivity ] | discriminate ] | ]).
  all: destruct (Z.gtb_spec (transport_header skb - data skb + 8) (skb_len skb))
    as [H8 | H8];
    [ split; [ split; [ intros _; lia | reflexivity ] | discriminate ] | ].
  all: destruct (Z.ltb_spec (udp_length skb) 8) as [Hu | Hu];
    [ split; [ split; [ intros _; lia | reflexivity ] | discriminate ] | ].
  all: rewrite (to_size_t_small (skb_len skb - (transport_header skb - data skb)))
    by lia.
  all: destruct (Z.gtb_spec (udp_length skb)
                            (skb_len skb - (transport_header skb - data skb)))
    as [Hr | Hr];
    [ split; [ split; [ intros _; lia | reflexivity ] | discriminate ] | ].
  all: rewrite (to_size_t_small (udp_length skb - 8)) by lia.
  all: destruct (pskb_may_pull skb (transport_header skb - data skb + 8 + 4))
    eqn:Hpull; cbn [negb].
  all: try (exfalso; lia).
  all: first
    [ split;
      [ split; [ discriminate | intros Hor; exfalso; intuition (lia || congruence) ]
      | intros ? ? Heq; injection Heq as <- <-; split; reflexivity ]
    | split;
      [ split; [ intros _; repeat right; reflexivity | reflexivity ] | discriminate ] ].
Qed.

(** What a successful parse returns, for any buffer. *)
Lemma skb_data_offset_value (skb : sk_buff) (data_offset data_len : Z) :
  skb_data_offset skb = inr (data_offset, data_len) ->
  data_offset = to_size_t (transport_header skb + 8 - data skb) /\
  data_len = udp_length skb - 8.
Proof.
  pose proof (udp_length_range skb) as Hudp.
  unfold skb_data_offset, sizeof_udphdr. fold (udp_length skb).
  repeat match goal with
         | |- context [if ?c then _ else _] => destruct c eqn:?
         end; try discriminate.
  intros Heq. injection Heq as <- <-. split; [ reflexivity | ].
  apply to_size_t_small.
  match goal with
  | H : (udp_length skb <? 8) = false |- _ => apply Z.ltb_ge in H
  end.
  lia.
Qed.

(** C7: the parser returns [-EINVAL] exactly when one of its checks fails
    (length below the IPv4 header; version neither 4 nor 6; version 6 and
    length below 40; UDP header not within the length; UDP length field
    below 8 or beyond the remaining bytes; message header not pullable);
    when no check fails it succeeds and returns
    [data_offset = udp_offset + 8] and [data_len = udp_length - 8].  This
    holds for every buffer in the [size_t] and [unsigned int] arithmetic of
    the code, and in plain integer arithmetic for a buffer whose length and
    UDP offset fit a C [int]. *)
Theorem skb_data_offset_checks (skb : sk_buff) :
  (skb_data_offset skb = inl EINVAL <->
     skb_len skb < 20
     \/ (ip_hdr_version skb <> 4 /\ ip_hdr_version skb <> 6)
     \/ (ip_hdr_version skb = 6 /\ skb_len skb < 40)
     \/ to_size_t (udp_offset skb + 8) > skb_len skb
     \/ udp_length skb < 8
     \/ udp_length skb > to_size_t (skb_len skb - udp_offset skb)
     \/ pskb_may_pull skb
          (to_uint (to_size_t (to_size_t (transport_header skb + 8 - data skb) + 4)))
        = false)
  /\ (~ (skb_len skb < 20
         \/ (ip_hdr_version skb <> 4 /\ ip_hdr_version skb <> 6)
         \/ (ip_hdr_version skb = 6 /\ skb_len skb < 40)
         \/ to_size_t (udp_offset skb + 8) > skb_len skb
         \/ udp_length skb < 8
         \/ udp_length skb > to_size_t (skb_len skb - udp_offset skb)
         \/ pskb_may_pull skb
              (to_uint (to_size_t (to_size_t (transport_header skb + 8 - data skb) + 4)))
            = false) ->
      skb_data_offset skb =
      inr (to_size_t (transport_header skb + 8 - data skb), udp_length skb - 8))
  /\ (forall e, skb_data_offset skb = inl e -> e = EINVAL)
  /\ (skb_in_range skb ->
      let off := transport_header skb - data skb in
      (skb_data_offset skb = inl EINVAL <->
         skb_len skb < 20
         \/ (ip_hdr_version skb <> 4 /\ ip_hdr_version skb <> 6)
         \/ (ip_hdr_version skb = 6 /\ skb_len skb < 40)
         \/ off + 8 > skb_len skb
         \/ udp_length skb < 8
         \/ udp_length skb > skb_len skb - off
         \/ pskb_may_pull skb (off + 8 + 4) = false)
      /\ (~ (skb_len skb < 20
             \/ (ip_hdr_version skb <> 4 /\ ip_hdr_version skb <> 6)
             \/ (ip_hdr_version skb = 6 /\ skb_len skb < 40)
             \/ off + 8 > skb_len skb
             \/ udp_length skb < 8
             \/ udp_length skb > skb_len skb - off
             \/ pskb_may_pull skb (off + 8 + 4) = false) ->
          skb_data_offset skb = inr (off + 8, udp_length skb - 8))).
Proof.
  assert (Hcases : forall D : Prop,
            (skb_data_offset skb = inl EINVAL <-> D) ->
            forall o l,
              (forall data_offset data_len,
                 skb_data_offset skb = inr (data_offset, data_len) ->
                 data_offset = o /\ data_len = l) ->
              ~ D -> skb_data_offset skb = inr (o, l)).
  { intros D Hiff o l Hval Hnot.
    destruct (skb_data_offset skb) as [e | [data_offset data_len]] eqn:Hres.
    - exfalso. apply Hnot, Hiff. f_equal. exact (skb_data_offset_errno skb e Hres).
    - destruct (Hval data_offset data_len eq_refl) as [-> ->]. reflexivity. }
  split; [ apply skb_data_offset_checks_wrapping | ].
  split.
  { apply (Hcases _ (skb_data_offset_checks_wrapping skb)).
    apply skb_data_offset_value. }
  split; [ apply skb_data_offset_errno | ].
  intros Hrange off.
  destruct (skb_data_offset_checks_in_range skb Hrange) as [Hiff Hval].
  split; [ exact Hiff | ].
  apply (Hcases _ Hiff). exact Hval.
Qed.

End Parser.

Lemma skb_data_offset_checks_witness :
  skb_in_range initiation_datagram /\
  skb_data_offset (K := no_cookie_script) initiation_datagram
  = inr (20 - 0 + 8, udp_length initiation_datagram - 8).
Proof.
  assert (Hrange : skb_in_range initiation_datagram)
    by (unfold skb_in_range; cbn; lia).
  split; [ exact Hrange | ].
  apply (proj2 (proj2 (proj2 (proj2
           (skb_data_offset_checks (K := no_cookie_script) initiation_datagram)))
           Hrange)).
  intros Hfail.
  destruct Hfail as [H | [[H _] | [[H _] | [H | [H | [H | H]]]]]];
    try (vm_compute in H; discriminate H).
  apply H. reflexivity.
Defined.

Example skb_data_offset_initiation :
  skb_data_offset (K := scripted INVALID_MAC None false None 0) initiation_datagram
  = inr (28, 148).
Proof. reflexivity. Qed.

Example skb_data_offset_short_udp :
  skb_data_offset (K := scripted INVALID_MAC None false None 0) short_udp_datagram
  = inl EINVAL.
Proof. reflexivity. Qed.

(** ** The log of calls *)

Lemma new_calls_app (before after : wireguard_device) (l : list event) :
  calls after = calls before ++ l -> new_calls before after = l.
Proof.
  intros H. unfold new_calls. rewrite H.
  rewrite skipn_app, skipn_all, Nat.sub_diag. reflexivity.
Qed.

Lemma new_calls_refl (wg : wireguard_device) : new_calls wg wg = [].
Proof. apply new_calls_app. now rewrite app_nil_r. Qed.

Lemma calls_call (e : event) (wg : wireguard_device) :
  calls (call e wg) = calls wg ++ [e].
Proof. reflexivity. Qed.

Lemma calls_peer_get (p : option peer_ptr) (wg : wireguard_device) :
  calls (peer_get p wg) = calls wg.
Proof. destruct p; reflexivity. Qed.

Lemma calls_peer_put (p : option peer_ptr) (wg : wireguard_device) :
  calls (peer_put p wg) = calls wg ++ [peer_put_call p].
Proof. destruct p; reflexivity. Qed.


(** ** Per-peer fields *)

Lemma upd_same (f : peer_ptr -> Z) (p : peer_ptr) (v : Z) : upd f p v p = v.
Proof. unfold upd. now rewrite Pos.eqb_refl. Qed.

Lemma upd_other (f : peer_ptr -> Z) (p q : peer_ptr) (v : Z) :
  q <> p -> upd f p v q = f q.
Proof. intros H. unfold upd. now destruct (Pos.eqb_spec q p). Qed.

(** Taking a reference and putting it back leaves every count as it was. *)
Lemma peer_get_put_refcount (r : option peer_ptr) (wg : wireguard_device) (q : peer_ptr) :
  peer_refcount (peer_put r (peer_get r wg)) q = peer_refcount wg q.
Proof.
  destruct r as [p | ]; [ | reflexivity ].
  cbn. unfold upd. destruct (Pos.eqb_spec q p) as [-> | Hne].
  - rewrite Pos.eqb_refl. lia.
  - reflexivity.
Qed.

(** ** The handshake worker: the decision *)

Section Handshake.

Context {K : Collaborators}.



End Handshake.


(** The four reachable rows of the matrix, run with a sender that holds a
    cookie and with one that does not, on an empty queue and on a queue of
    [MAX_QUEUED_HANDSHAKES / 2] buffers. *)
Example decision_matrix_rows :
  hd_error (skipn 1
    (new_calls fresh_device
       (receive_handshake_packet (K := cookie_holder_script) fresh_device
          (skb_payload initiation_datagram 28) 148 initiation_datagram)))
  = Some (noise_handshake_consume_initiation_call
            (skb_payload initiation_datagram 28) (Some 1%positive)) /\
  hd_error (skipn 1
    (new_calls (device_with_queue 2048)
       (receive_handshake_packet (K := cookie_holder_script) (device_with_queue 2048)
          (skb_payload initiation_datagram 28) 148 initiation_datagram)))
  = Some (noise_handshake_consume_initiation_call
            (skb_payload initiation_datagram 28) (Some 1%positive)) /\
  hd_error (skipn 1
    (new_calls (device_with_queue 2048)
       (receive_handshake_packet (K := no_cookie_script) (device_with_queue 2048)
          (skb_payload initiation_datagram 28) 148 initiation_datagram)))
  = Some (packet_send_handshake_cookie initiation_datagram 148 42) /\
  skipn 1
    (new_calls fresh_device
       (receive_handshake_packet
          (K := scripted INVALID_MAC (Some 1%positive) true None NET_RX_SUCCESS)
          fresh_device (skb_payload initiation_datagram 28) 148 initiation_datagram))
  = [].
Proof. repeat split; vm_compute; reflexivity. Qed.

(** ** The handshake worker: the cookie reply under load *)

Section CookieReply.

Context {K : Collaborators}.

(** C8: under load, an initiation or a response with a valid MAC but no
    cookie makes exactly one cookie reply, sent for the inbound buffer (which
    carries the source of the datagram) with the sender index of the inbound
    message, and nothing else: no call that moves a handshake state, no
    address update, and every counter, reference count and the queue as
    before. *)
Theorem cookie_reply_under_load (wg : wireguard_device) (data : list byte) (len : Z)
        (skb : sk_buff)
        (Hload : under_load wg = true)
        (Hmac : cookie_validate_packet skb data len true = VALID_MAC_BUT_NO_COOKIE)
        (Hkind : message_determine_type data len = MESSAGE_HANDSHAKE_INITIATION \/
                 message_determine_type data len = MESSAGE_HANDSHAKE_RESPONSE) :
  let wg' := receive_handshake_packet wg data len skb in
  new_calls wg wg' =
    [ cookie_validate_packet_call skb len true VALID_MAC_BUT_NO_COOKIE;
      packet_send_handshake_cookie skb
        (match message_determine_type data len with
         | MESSAGE_HANDSHAKE_INITIATION => sizeof_message_handshake_initiation
         | _ => sizeof_message_handshake_response
         end)
        (sender_index data) ] /\
  count_calls is_cookie_reply (new_calls wg wg') = 1%nat /\
  count_calls is_handshake_transition (new_calls wg wg') = 0%nat /\
  count_calls is_addr_update (new_calls wg wg') = 0%nat /\
  stats wg' = stats wg /\
  tstats wg' = tstats wg /\
  peer_rx_bytes wg' = peer_rx_bytes wg /\
  peer_refcount wg' = peer_refcount wg /\
  incoming_handshakes wg' = incoming_handshakes wg.
Proof.
  intros wg'.
  assert (Hnew : new_calls wg wg' =
    [ cookie_validate_packet_call skb len true VALID_MAC_BUT_NO_COOKIE;
      packet_send_handshake_cookie skb
        (match message_determine_type data len with
         | MESSAGE_HANDSHAKE_INITIATION => sizeof_message_handshake_initiation
         | _ => sizeof_message_handshake_response
         end)
        (sender_index data) ]).
  { apply new_calls_app. subst wg'. unfold receive_handshake_packet.
    destruct Hkind as [-> | ->]; rewrite Hload, Hmac; cbn;
      rewrite <- app_assoc; reflexivity. }
  rewrite Hnew. split; [ reflexivity | ].
  subst wg'. unfold receive_handshake_packet.
  destruct Hkind as [-> | ->]; rewrite Hload, Hmac; cbn; repeat split; reflexivity.
Qed.

End CookieReply.

Lemma cookie_reply_under_load_witness :
  under_load (device_with_queue 2048) = true /\
  new_calls (device_with_queue 2048)
    (receive_handshake_packet (K := no_cookie_script) (device_with_queue 2048)
       (skb_payload initiation_datagram 28) 148 initiation_datagram) =
  [ cookie_validate_packet_call initiation_datagram 148 true VALID_MAC_BUT_NO_COOKIE;
    packet_send_handshake_cookie initiation_datagram 148 42 ].
Proof.
  assert (Hload : under_load (device_with_queue 2048) = true) by (vm_compute; reflexivity).
  split; [ exact Hload | ].
  exact (proj1 (cookie_reply_under_load (K := no_cookie_script) (device_with_queue 2048)
                  (skb_payload initiation_datagram 28) 148 initiation_datagram
                  Hload eq_refl (or_introl eq_refl))).
Defined.

(** ** The handshake worker: the loop *)

Section Worker.

Context {K : Collaborators}.

Lemma handshake_switch_extends (mt : message_type) (needs_cookie : bool)
      (wg : wireguard_device) (data : list byte) (len : Z) (skb : sk_buff) :
  exists l, calls (handshake_switch mt needs_cookie wg data len skb) = calls wg ++ l.
Proof.
  unfold handshake_switch, handshake_bookkeeping, update_latest_addr.
  destruct mt, needs_cookie;
    repeat match goal with
           | |- context [match ?x with _ => _ end] =>
             match type of x with
             | option _ => destruct x
             | bool => destruct x
             end
           end;
    cbn; repeat rewrite <- app_assoc;
    first [ eexists; reflexivity | exists []; symmetry; apply app_nil_r ].
Qed.

(** A handshake message that is not a cookie reply goes to the cookie
    checker first, with the [under_load] of the device it is handed. *)
Lemma receive_handshake_packet_validates (wg : wireguard_device) (data : list byte)
      (len : Z) (skb : sk_buff) :
  message_determine_type data len <> MESSAGE_HANDSHAKE_COOKIE ->
  exists l,
    calls (receive_handshake_packet wg data len skb) =
    calls wg ++
    cookie_validate_packet_call skb len (under_load wg)
      (cookie_validate_packet skb data len (under_load wg)) :: l.
Proof.
  intros Hkind. unfold receive_handshake_packet.
  set (wg1 := call _ wg).
  assert (Hstep : forall w, (exists l, calls w = calls wg1 ++ l) ->
    exists l, calls w = calls wg ++
      cookie_validate_packet_call skb len (under_load wg)
        (cookie_validate_packet skb data len (under_load wg)) :: l).
  { intros w [l Hl]. exists l. rewrite Hl. subst wg1. cbn.
    rewrite <- app_assoc. reflexivity. }
  destruct (message_determine_type data len) eqn:Hmt; try congruence;
    match goal with
    | |- context [if ?c then _ else _] => destruct c
    end;
    try (apply Hstep; apply handshake_switch_extends);
    match goal with
    | |- context [if ?c then _ else _] => destruct c
    end;
    try (apply Hstep; apply handshake_switch_extends);
    apply Hstep; exists []; symmetry; apply app_nil_r.
Qed.

Lemma receive_handshake_packet_extends (wg : wireguard_device) (data : list byte)
      (len : Z) (skb : sk_buff) :
  exists l, calls (receive_handshake_packet wg data len skb) = calls wg ++ l.
Proof.
  destruct (message_determine_type data len) eqn:Hmt.
  5: { destruct (receive_handshake_packet_validates wg data len skb) as [l Hl];
       [ congruence | eexists; exact Hl ]. }
  4: { unfold receive_handshake_packet. rewrite Hmt. eexists. reflexivity. }
  all: destruct (receive_handshake_packet_validates wg data len skb) as [l Hl];
    [ congruence | eexists; exact Hl ].
Qed.

Lemma process_dequeued_extends (skb : sk_buff) (wg : wireguard_device) :
  exists l, calls (process_dequeued skb wg) = calls wg ++ l.
Proof.
  unfold process_dequeued, dev_kfree_skb.
  destruct (skb_data_offset skb) as [e | [offset len]].
  - eexists. reflexivity.
  - destruct (receive_handshake_packet_extends wg (skb_payload skb offset) len skb)
      as [l Hl].
    exists (l ++ [dev_kfree_skb_call skb]). rewrite calls_call, Hl.
    now rewrite <- app_assoc.
Qed.

Lemma handshake_burst_extends (remaining : nat) (wg : wireguard_device) :
  exists l, calls (handshake_burst remaining wg) = calls wg ++ l.
Proof.
  revert wg. induction remaining as [ | r IH]; intros wg.
  - exists []. symmetry. apply app_nil_r.
  - cbn [handshake_burst]. unfold skb_dequeue.
    destruct (incoming_handshakes wg) as [ | skb rest].
    + exists []. symmetry. apply app_nil_r.
    + destruct (process_dequeued_extends skb (set_incoming_handshakes rest wg))
        as [l Hl].
      cbn [calls set_incoming_handshakes] in Hl.
      destruct r as [ | r'].
      * exists (l ++ [queue_work]). rewrite calls_call, Hl. now rewrite <- app_assoc.
      * destruct (IH (process_dequeued skb (set_incoming_handshakes rest wg)))
          as [l' Hl'].
        exists (l ++ l'). rewrite Hl', Hl. now rewrite <- app_assoc.
Qed.

(** A successful parse has pulled the message header. *)
Lemma skb_data_offset_pulled (skb : sk_buff) (offset len : Z) :
  skb_data_offset skb = inr (offset, len) ->
  pskb_may_pull skb (to_uint (to_size_t (offset + sizeof_message_header))) = true.
Proof.
  unfold skb_data_offset.
  repeat match goal with
         | |- context [if ?c then _ else _] => destruct c eqn:?
         end; try discriminate.
  intros Heq. injection Heq as <- _.
  match goal with
  | H : negb ?b = false |- ?b = true => now destruct b
  end.
Qed.

(** C5, amended: for a dequeued handshake message that is not a cookie
    reply, the [under_load] handed to the cookie checker is
    [queue_len >= MAX_QUEUED_HANDSHAKES / 2] for the queue as it is after
    this buffer has been dequeued, that is for the buffers that remain. *)
Theorem under_load_after_dequeue (wg : wireguard_device) (skb : sk_buff)
        (rest : list sk_buff) (offset len : Z) (remaining : nat)
        (Hqueue : incoming_handshakes wg = skb :: rest)
        (Hparse : skb_data_offset skb = inr (offset, len))
        (Hkind : message_determine_type (skb_payload skb offset) len
                 <> MESSAGE_HANDSHAKE_COOKIE) :
  let load := skb_queue_len rest >=? MAX_QUEUED_HANDSHAKES ÷ 2 in
  exists tail,
    new_calls wg (handshake_burst (S remaining) wg) =
    cookie_validate_packet_call skb len load
      (cookie_validate_packet skb (skb_payload skb offset) len load) :: tail.
Proof.
  intros load.
  cbn [handshake_burst]. unfold skb_dequeue. rewrite Hqueue.
  set (wg1 := set_incoming_handshakes rest wg).
  assert (Hone : exists l,
    calls (process_dequeued skb wg1) =
    calls wg ++ cookie_validate_packet_call skb len load
      (cookie_validate_packet skb (skb_payload skb offset) len load) :: l).
  { unfold process_dequeued. rewrite Hparse.
    destruct (receive_handshake_packet_validates wg1 (skb_payload skb offset) len skb
                Hkind) as [l Hl].
    exists (l ++ [dev_kfree_skb_call skb]).
    unfold dev_kfree_skb. rewrite calls_call, Hl.
    rewrite <- app_assoc. reflexivity. }
  destruct Hone as [l Hl].
  destruct remaining as [ | r].
  - exists (l ++ [queue_work]). apply new_calls_app.
    rewrite calls_call, Hl, <- app_assoc. reflexivity.
  - destruct (handshake_burst_extends (S r) (process_dequeued skb wg1)) as [l' Hl'].
    exists (l ++ l'). apply new_calls_app.
    rewrite Hl', Hl, <- app_assoc. reflexivity.
Qed.

(** C10: the worker runs the outer-frame parser on the buffer it has
    dequeued; when the parse fails the buffer is freed and nothing else
    happens; when it succeeds [receive_handshake_packet] is run on a payload
    whose message header has been pulled, and the buffer is freed after
    it. *)
Theorem worker_reparses_dequeued (wg : wireguard_device) (skb : sk_buff)
        (rest : list sk_buff) (remaining : nat)
        (Hqueue : incoming_handshakes wg = skb :: rest) :
  let wg1 := set_incoming_handshakes rest wg in
  handshake_burst (S remaining) wg =
    match remaining with
    | O => call queue_work (process_dequeued skb wg1)
    | S _ => handshake_burst remaining (process_dequeued skb wg1)
    end /\
  (forall e, skb_data_offset skb = inl e ->
     process_dequeued skb wg1 = dev_kfree_skb skb wg1 /\
     new_calls wg (process_dequeued skb wg1) = [dev_kfree_skb_call skb] /\
     stats (process_dequeued skb wg1) = stats wg /\
     tstats (process_dequeued skb wg1) = tstats wg /\
     peer_rx_bytes (process_dequeued skb wg1) = peer_rx_bytes wg /\
     peer_refcount (process_dequeued skb wg1) = peer_refcount wg) /\
  (forall offset len, skb_data_offset skb = inr (offset, len) ->
     process_dequeued skb wg1 =
       dev_kfree_skb skb (receive_handshake_packet wg1 (skb_payload skb offset) len skb) /\
     pskb_may_pull skb (to_uint (to_size_t (offset + sizeof_message_header))) = true).
Proof.
  intros wg1. split; [ | split ].
  - cbn [handshake_burst]. unfold skb_dequeue. rewrite Hqueue. reflexivity.
  - intros e He. unfold process_dequeued. rewrite He.
    repeat split. apply new_calls_app. reflexivity.
  - intros offset len Hparse. split.
    + unfold process_dequeued. rewrite Hparse. reflexivity.
    + now apply skb_data_offset_pulled with (len := len).
Qed.

End Worker.

Lemma under_load_after_dequeue_witness :
  incoming_handshakes (device_with_queue 1) = [initiation_datagram] /\
  skb_data_offset (K := no_cookie_script) initiation_datagram = inr (28, 148) /\
  message_determine_type (Collaborators := no_cookie_script)
    (skb_payload initiation_datagram 28) 148 <> MESSAGE_HANDSHAKE_COOKIE /\
  exists tail,
    new_calls (device_with_queue 1)
      (handshake_burst (K := no_cookie_script) 8 (device_with_queue 1)) =
    cookie_validate_packet_call initiation_datagram 148
      (skb_queue_len [] >=? MAX_QUEUED_HANDSHAKES ÷ 2)
      (cookie_validate_packet (Collaborators := no_cookie_script) initiation_datagram
         (skb_payload initiation_datagram 28) 148
         (skb_queue_len [] >=? MAX_QUEUED_HANDSHAKES ÷ 2)) :: tail.
Proof.
  assert (Hkind : message_determine_type (Collaborators := no_cookie_script)
            (skb_payload initiation_datagram 28) 148 <> MESSAGE_HANDSHAKE_COOKIE)
    by (vm_compute; discriminate).
  repeat split; [ exact Hkind | ].
  exact (under_load_after_dequeue (K := no_cookie_script) (device_with_queue 1)
           initiation_datagram [] 28 148 7 eq_refl eq_refl Hkind).
Defined.

(** C5 as the specification states it fails: with exactly
    [MAX_QUEUED_HANDSHAKES / 2] buffers queued before the dequeue, the queue
    length before the dequeue gives [under_load = true], but the cookie
    checker is asked with [under_load = false]. *)
Lemma under_load_before_dequeue_fails :
  (skb_queue_len (incoming_handshakes (device_with_queue 2048))
     >=? MAX_QUEUED_HANDSHAKES ÷ 2) = true /\
  hd_error
    (new_calls (device_with_queue 2048)
       (packet_process_queued_handshake_packets (K := no_cookie_script)
          (device_with_queue 2048))) =
  Some (cookie_validate_packet_call initiation_datagram 148 false
          VALID_MAC_BUT_NO_COOKIE) /\
  hd_error
    (new_calls (device_with_queue 2048)
       (packet_process_queued_handshake_packets (K := no_cookie_script)
          (device_with_queue 2048))) <>
  Some (cookie_validate_packet_call initiation_datagram 148
          (skb_queue_len (incoming_handshakes (device_with_queue 2048))
             >=? MAX_QUEUED_HANDSHAKES ÷ 2)
          VALID_MAC_BUT_NO_COOKIE).
Proof.
  split; [ | split ].
  - vm_compute. reflexivity.
  - vm_compute. reflexivity.
  - vm_compute. discriminate.
Qed.

Lemma worker_reparses_dequeued_witness :
  incoming_handshakes (device_with_queue 1) = [initiation_datagram] /\
  process_dequeued (K := no_cookie_script) initiation_datagram
    (set_incoming_handshakes [] (device_with_queue 1)) =
  dev_kfree_skb initiation_datagram
    (receive_handshake_packet (K := no_cookie_script)
       (set_incoming_handshakes [] (device_with_queue 1))
       (skb_payload initiation_datagram 28) 148 initiation_datagram) /\
  pskb_may_pull (Collaborators := no_cookie_script) initiation_datagram
    (to_uint (to_size_t (28 + sizeof_message_header))) = true.
Proof.
  split; [ reflexivity | ].
  exact (proj2 (proj2 (worker_reparses_dequeued (K := no_cookie_script)
                         (device_with_queue 1) initiation_datagram [] 7 eq_refl))
               28 148 eq_refl).
Defined.

(** A buffer whose UDP length field is 7 is freed by the worker and nothing
    else is called. *)
Example worker_frees_unparsable :
  new_calls (set_incoming_handshakes [short_udp_datagram] fresh_device)
    (packet_process_queued_handshake_packets (K := no_cookie_script)
       (set_incoming_handshakes [short_udp_datagram] fresh_device)) =
  [dev_kfree_skb_call short_udp_datagram].
Proof. vm_compute. reflexivity. Qed.

(** ** The data-packet callback *)

Section DataPacket.

Context {K : Collaborators}.

(** The log between [wg] and a state whose log is [calls wg] followed by
    single calls. *)
Ltac read_new_calls :=
  unfold new_calls; cbn [calls call dev_kfree_skb peer_put peer_get set_peer_refcount
    set_stats set_tstats set_last_rx set_peer_rx_bytes rx_stats count_length_error
    count_frame_error count_dropped continue_processing packet_processed];
  repeat rewrite <- app_assoc;
  try rewrite skipn_app, skipn_all, Nat.sub_diag;
  cbn [skipn app].

(** The version of the inner packet is read from bytes that the writes to
    [dev], [ip_summed] and [protocol] leave alone. *)
Lemma ip_hdr_version_prepared (skb : sk_buff) :
  ip_hdr_version (set_ip_summed CHECKSUM_UNNECESSARY (set_skb_dev skb))
  = ip_hdr_version skb.
Proof. reflexivity. Qed.

(** With an inner IP header, the callback goes to the routing lookup. *)
Lemma receive_data_packet_routed (wg : wireguard_device) (skb : sk_buff)
      (peer : peer_ptr) (addr : sockaddr_storage) (used_new_key : bool) (err : Z) :
  0 <= err ->
  has_inner_ip_header skb ->
  receive_data_packet wg skb (Some peer) (Some addr) used_new_key err =
  receive_routed (inner_skb skb) peer addr
    (if used_new_key then call (packet_send_queue peer) wg else wg).
Proof.
  intros Herr (Hlen & Hpull & Hver).
  unfold receive_data_packet, inner_skb, sizeof_iphdr, sizeof_ipv6hdr in *.
  destruct (Z.ltb_spec err 0) as [ | _]; [ lia | ].
  destruct (Z.eqb_spec (skb_len skb) 0) as [ | _]; [ lia | ].
  destruct (Z.ltb_spec (skb_len skb) 20) as [ | _]; [ lia | ].
  rewrite Hpull. cbn [negb]. rewrite ip_hdr_version_prepared.
  cbn [skb_len set_ip_summed set_skb_dev].
  destruct Hver as [H4 | [H6 Hlen6]].
  - rewrite H4. reflexivity.
  - rewrite H6. cbn [Z.eqb Pos.eqb].
    destruct (Z.ltb_spec (skb_len skb) 40) as [ | _]; [ lia | ]. reflexivity.
Qed.

(** C4, amended: for a keep-alive (decrypted length 0, [err >= 0], peer and
    address not NULL) the callback does not call [timers_data_received]; it
    calls [timers_any_authorized_packet_received], frees the buffer without
    giving it to the network stack, and leaves [rx_packets] and the other
    counters as they were. *)
Theorem keepalive_not_delivered (wg : wireguard_device) (skb : sk_buff)
        (peer : peer_ptr) (addr : sockaddr_storage) (used_new_key : bool) (err : Z)
        (Herr : 0 <= err) (Hlen : skb_len skb = 0) :
  let wg' := receive_data_packet wg skb (Some peer) (Some addr) used_new_key err in
  new_calls wg wg' =
    (if used_new_key then [packet_send_queue peer] else []) ++
    [ dev_kfree_skb_call skb;
      timers_any_authorized_packet_received peer;
      socket_set_peer_addr peer addr;
      peer_put_call (Some peer) ] /\
  count_calls is_timers_data_received (new_calls wg wg') = 0%nat /\
  count_calls is_timers_any_authorized (new_calls wg wg') = 1%nat /\
  count_calls is_netif_rx (new_calls wg wg') = 0%nat /\
  rx_packets (tstats wg') = rx_packets (tstats wg) /\
  tstats wg' = tstats wg /\
  stats wg' = stats wg /\
  peer_rx_bytes wg' = peer_rx_bytes wg.
Proof.
  intros wg'.
  assert (Hnew : new_calls wg wg' =
    (if used_new_key then [packet_send_queue peer] else []) ++
    [ dev_kfree_skb_call skb;
      timers_any_authorized_packet_received peer;
      socket_set_peer_addr peer addr;
      peer_put_call (Some peer) ]).
  { subst wg'. unfold receive_data_packet.
    destruct (Z.ltb_spec err 0) as [ | _]; [ lia | ].
    rewrite Hlen. cbn [Z.eqb].
    destruct used_new_key; read_new_calls; reflexivity. }
  rewrite Hnew. split; [ reflexivity | ].
  subst wg'. unfold receive_data_packet.
  destruct (Z.ltb_spec err 0) as [ | _]; [ lia | ].
  rewrite Hlen. cbn [Z.eqb].
  destruct used_new_key; repeat split; reflexivity.
Qed.

(** C6: a decrypted packet with an inner IP header whose source address the
    routing table gives to another peer, or to none, is not handed to the
    network stack: [rx_errors] and [rx_frame_errors] go up by one, the other
    counters stay, and the buffer is freed. *)
Theorem unrouted_source_not_delivered (wg : wireguard_device) (skb : sk_buff)
        (peer : peer_ptr) (addr : sockaddr_storage) (used_new_key : bool) (err : Z)
        (Herr : 0 <= err)
        (Hinner : has_inner_ip_header skb)
        (Hroute : routing_table_lookup_src (inner_skb skb) <> Some peer) :
  let wg' := receive_data_packet wg skb (Some peer) (Some addr) used_new_key err in
  let routed := routing_table_lookup_src (inner_skb skb) in
  new_calls wg wg' =
    (if used_new_key then [packet_send_queue peer] else []) ++
    [ timers_data_received peer;
      routing_table_lookup_src_call (inner_skb skb) routed;
      peer_put_call routed;
      dev_kfree_skb_call (inner_skb skb);
      timers_any_authorized_packet_received peer;
      socket_set_peer_addr peer addr;
      peer_put_call (Some peer) ] /\
  count_calls is_netif_rx (new_calls wg wg') = 0%nat /\
  count_calls is_kfree_skb (new_calls wg wg') = 1%nat /\
  rx_errors (stats wg') = ulong_inc (rx_errors (stats wg)) /\
  rx_frame_errors (stats wg') = ulong_inc (rx_frame_errors (stats wg)) /\
  (0 <= rx_errors (stats wg) < 2 ^ 64 - 1 ->
   rx_errors (stats wg') = rx_errors (stats wg) + 1) /\
  (0 <= rx_frame_errors (stats wg) < 2 ^ 64 - 1 ->
   rx_frame_errors (stats wg') = rx_frame_errors (stats wg) + 1) /\
  rx_length_errors (stats wg') = rx_length_errors (stats wg) /\
  rx_dropped (stats wg') = rx_dropped (stats wg) /\
  tstats wg' = tstats wg.
Proof.
  intros wg' routed.
  assert (Hmiss : peer_ptr_eqb routed (Some peer) = false).
  { subst routed. destruct (routing_table_lookup_src (inner_skb skb)) as [q | ];
      [ | reflexivity ].
    cbn. destruct (Pos.eqb_spec q peer); congruence. }
  assert (Hnew : new_calls wg wg' =
    (if used_new_key then [packet_send_queue peer] else []) ++
    [ timers_data_received peer;
      routing_table_lookup_src_call (inner_skb skb) routed;
      peer_put_call routed;
      dev_kfree_skb_call (inner_skb skb);
      timers_any_authorized_packet_received peer;
      socket_set_peer_addr peer addr;
      peer_put_call (Some peer) ]).
  { subst wg'. rewrite receive_data_packet_routed by assumption.
    unfold receive_routed. fold routed. rewrite Hmiss. cbn [negb].
    destruct used_new_key, routed; read_new_calls; reflexivity. }
  rewrite Hnew.
  assert (Hstats : stats wg' = stats (count_frame_error wg) /\ tstats wg' = tstats wg).
  { subst wg'. rewrite receive_data_packet_routed by assumption.
    unfold receive_routed. fold routed. rewrite Hmiss. cbn [negb].
    destruct used_new_key, routed; split; reflexivity. }
  destruct Hstats as [Hstats Htstats]. rewrite Hstats.
  cbn [stats count_frame_error set_stats rx_errors rx_frame_errors rx_length_errors
       rx_dropped].
  repeat split; try assumption.
  - destruct used_new_key; reflexivity.
  - destruct used_new_key; reflexivity.
  - intros Hroom. now apply ulong_inc_no_wrap.
  - intros Hroom. now apply ulong_inc_no_wrap.
Qed.

(** X17: the network stack is given a buffer only after the routing table
    has returned the authenticated peer for it. *)
Lemma delivery_only_when_routed (wg : wireguard_device) (skb : sk_buff)
      (peer : option peer_ptr) (addr : option sockaddr_storage)
      (used_new_key : bool) (err : Z) :
  count_calls is_netif_rx
    (new_calls wg (receive_data_packet wg skb peer addr used_new_key err)) <> 0%nat ->
  exists p, peer = Some p /\ routing_table_lookup_src (inner_skb skb) = Some p.
Proof.
  unfold receive_data_packet, receive_routed, inner_skb.
  rewrite !ip_hdr_version_prepared.
  destruct peer as [p | ], addr as [a | ], (err <? 0);
    try (read_new_calls; intros H; exfalso; apply H; reflexivity).
  destruct (skb_len skb =? 0);
    [ destruct used_new_key; read_new_calls; intros H; exfalso; apply H; reflexivity | ].
  destruct (skb_len skb <? sizeof_iphdr);
    [ destruct used_new_key; read_new_calls; intros H; exfalso; apply H; reflexivity | ].
  destruct (negb (pskb_may_pull skb 1));
    [ destruct used_new_key; read_new_calls; intros H; exfalso; apply H; reflexivity | ].
  assert (Hmatch : forall r : option peer_ptr,
            negb (peer_ptr_eqb r (Some p)) = false -> r = Some p).
  { intros [q | ]; cbn; [ | discriminate ].
    destruct (Pos.eqb_spec q p) as [-> | ]; [ reflexivity | discriminate ]. }
  destruct (ip_hdr_version skb =? 4);
    [ | destruct (ip_hdr_version skb =? 6);
        [ cbn [skb_len set_ip_summed set_skb_dev];
          destruct (skb_len skb <? sizeof_ipv6hdr) | ] ];
    try (destruct used_new_key; read_new_calls; intros H; exfalso; apply H; reflexivity).
  all: match goal with
       | |- context [negb (peer_ptr_eqb ?r (Some ?q))] =>
         destruct (negb (peer_ptr_eqb r (Some q))) eqn:Hr;
           [ destruct used_new_key, r; read_new_calls; intros H; exfalso; apply H; reflexivity
           | intros _; exists p; split; [ reflexivity | now apply Hmatch ] ]
       end.
Qed.

(** C9: on the way through the routing check, the handle the routing table
    returns is put back right after the lookup, whatever it is (NULL, the
    authenticated peer, or another peer), and there is no other lookup; the
    lookup and this release together leave every reference count as it was,
    so that the count of the authenticated peer only loses the reference the
    callback was called with. *)
Theorem routed_peer_reference_released (wg : wireguard_device) (skb : sk_buff)
        (peer : peer_ptr) (addr : sockaddr_storage) (used_new_key : bool) (err : Z)
        (Herr : 0 <= err)
        (Hinner : has_inner_ip_header skb) :
  let wg' := receive_data_packet wg skb (Some peer) (Some addr) used_new_key err in
  let routed := routing_table_lookup_src (inner_skb skb) in
  (exists tail,
     new_calls wg wg' =
       (if used_new_key then [packet_send_queue peer] else []) ++
       [ timers_data_received peer;
         routing_table_lookup_src_call (inner_skb skb) routed;
         peer_put_call routed ] ++ tail /\
     count_calls is_routing_lookup tail = 0%nat /\
     filter is_peer_put tail = [peer_put_call (Some peer)]) /\
  (forall w q, peer_refcount (peer_put routed (peer_get routed w)) q = peer_refcount w q) /\
  peer_refcount wg' peer = peer_refcount wg peer - 1 /\
  (forall q, q <> peer -> peer_refcount wg' q = peer_refcount wg q).
Proof.
  intros wg' routed. subst wg'.
  rewrite receive_data_packet_routed by assumption.
  unfold receive_routed. fold routed.
  split; [ | split; [ | split ] ].
  - destruct (negb (peer_ptr_eqb routed (Some peer)));
      [ | destruct (netif_rx (inner_skb skb) =? NET_RX_SUCCESS) ];
      destruct used_new_key, routed; eexists;
        (split; [ read_new_calls; reflexivity | split; reflexivity ]).
  - intros w q. apply peer_get_put_refcount.
  - destruct (negb (peer_ptr_eqb routed (Some peer)));
      [ | destruct (netif_rx (inner_skb skb) =? NET_RX_SUCCESS) ];
      destruct used_new_key, routed as [r | ]; cbn; unfold upd;
        rewrite ?Pos.eqb_refl; try destruct (Pos.eqb_spec peer r); try subst r; lia.
  - intros q Hq.
    destruct (negb (peer_ptr_eqb routed (Some peer)));
      [ | destruct (netif_rx (inner_skb skb) =? NET_RX_SUCCESS) ];
      destruct used_new_key, routed as [r | ]; cbn; unfold upd;
        destruct (Pos.eqb_spec q peer); try congruence;
        try destruct (Pos.eqb_spec q r); try subst r; rewrite ?Pos.eqb_refl; lia.
Qed.

(** C3, amended: on every path of the callback the buffer is either freed
    or handed to the network stack, exactly one of the two.  When the
    callback returns early ([err < 0], or a NULL peer or address) the buffer
    is freed and no peer reference is released.  Otherwise the count of the
    authenticated peer ends one lower, the last call being its [peer_put],
    and the count of every other peer ends as it started. *)
Theorem receive_data_packet_releases (wg : wireguard_device) (skb : sk_buff)
        (peer : option peer_ptr) (addr : option sockaddr_storage)
        (used_new_key : bool) (err : Z) :
  let wg' := receive_data_packet wg skb peer addr used_new_key err in
  (count_calls is_kfree_skb (new_calls wg wg')
   + count_calls is_netif_rx (new_calls wg wg') = 1)%nat /\
  (early_return peer addr err = true ->
     new_calls wg wg' = [dev_kfree_skb_call skb] /\
     peer_refcount wg' = peer_refcount wg) /\
  (forall p, early_return peer addr err = false -> peer = Some p ->
     peer_refcount wg' p = peer_refcount wg p - 1 /\
     (forall q, q <> p -> peer_refcount wg' q = peer_refcount wg q) /\
     exists l, new_calls wg wg' = l ++ [peer_put_call (Some p)]).
Proof.
  intros wg'. subst wg'.
  unfold receive_data_packet, receive_routed, early_return.
  destruct peer as [p | ], addr as [a | ], (err <? 0);
    cbn [orb];
    repeat match goal with
           | |- context [if ?c then _ else _] => destruct c
           end;
    cbn [orb];
    (split; [ | split ]);
    try (intros Hearly; discriminate Hearly);
    try (intros p' Hearly; discriminate Hearly);
    try (intros p' _ Hp; discriminate Hp).
  all: try (read_new_calls; reflexivity).
  all: try (intros _; split; [ read_new_calls; reflexivity | reflexivity ]).
  all: try (destruct (routing_table_lookup_src _) as [r | ];
            read_new_calls; reflexivity).
  all: intros p' _ Hp; injection Hp as <-; split; [ | split ].
  all: try destruct (routing_table_lookup_src _) as [r | ].
  all: try (cbn; unfold upd; rewrite ?Pos.eqb_refl;
            try destruct (Pos.eqb_spec p r); try subst r;
            rewrite ?Pos.eqb_refl; lia).
  all: try (intros q Hq; cbn; unfold upd;
            destruct (Pos.eqb_spec q p); try congruence;
            try destruct (Pos.eqb_spec q r); try subst r;
            rewrite ?Pos.eqb_refl; lia).
  all: read_new_calls;
    match goal with
    | |- @ex _ (fun l => ?xs = _) => exists (removelast xs); reflexivity
    end.
Qed.

End DataPacket.

Lemma keepalive_not_delivered_witness :
  0 <= 0 /\
  skb_len keepalive_packet = 0 /\
  new_calls fresh_device
    (receive_data_packet (K := routing_script (Some 1%positive)) fresh_device
       keepalive_packet (Some 1%positive) (Some outer_addr) false 0) =
  [ dev_kfree_skb_call keepalive_packet;
    timers_any_authorized_packet_received 1%positive;
    socket_set_peer_addr 1%positive outer_addr;
    peer_put_call (Some 1%positive) ].
Proof.
  split; [ lia | split; [ reflexivity | ] ].
  exact (proj1 (keepalive_not_delivered (K := routing_script (Some 1%positive))
                  fresh_device keepalive_packet 1%positive outer_addr false 0
                  (Z.le_refl 0) eq_refl)).
Defined.

(** C4 as the specification states it fails: on a keep-alive the callback
    does not call [timers_data_received]. *)
Lemma keepalive_data_received_fails :
  skb_len keepalive_packet = 0 /\
  ~ In (timers_data_received 1%positive)
       (new_calls fresh_device
          (receive_data_packet (K := routing_script (Some 1%positive)) fresh_device
             keepalive_packet (Some 1%positive) (Some outer_addr) false 0)) /\
  count_calls is_timers_data_received
    (new_calls fresh_device
       (receive_data_packet (K := routing_script (Some 1%positive)) fresh_device
          keepalive_packet (Some 1%positive) (Some outer_addr) false 0)) = 0%nat.
Proof.
  split; [ reflexivity | split ].
  - vm_compute. intros [H | [H | [H | [H | []]]]]; discriminate H.
  - vm_compute. reflexivity.
Qed.

Lemma inner_ipv4_packet_has_header :
  has_inner_ip_header (K := routing_script (Some 2%positive)) inner_ipv4_packet.
Proof.
  unfold has_inner_ip_header. split; [ | split ].
  - vm_compute. discriminate.
  - reflexivity.
  - left. reflexivity.
Defined.

Lemma unrouted_source_not_delivered_witness :
  0 <= 0 /\
  has_inner_ip_header (K := routing_script (Some 2%positive)) inner_ipv4_packet /\
  routing_table_lookup_src (Collaborators := routing_script (Some 2%positive))
    (inner_skb inner_ipv4_packet) <> Some 1%positive /\
  count_calls is_netif_rx
    (new_calls fresh_device
       (receive_data_packet (K := routing_script (Some 2%positive)) fresh_device
          inner_ipv4_packet (Some 1%positive) (Some outer_addr) false 0)) = 0%nat /\
  rx_errors (stats (receive_data_packet (K := routing_script (Some 2%positive))
                      fresh_device inner_ipv4_packet (Some 1%positive)
                      (Some outer_addr) false 0))
  = ulong_inc (rx_errors (stats fresh_device)).
Proof.
  assert (Hroute :
    routing_table_lookup_src (Collaborators := routing_script (Some 2%positive))
      (inner_skb inner_ipv4_packet) <> Some 1%positive)
    by (cbn; discriminate).
  pose proof (unrouted_source_not_delivered (K := routing_script (Some 2%positive))
                fresh_device inner_ipv4_packet 1%positive outer_addr false 0
                (Z.le_refl 0) inner_ipv4_packet_has_header Hroute) as H.
  split; [ lia | split; [ exact inner_ipv4_packet_has_header | split; [ exact Hroute | ] ] ].
  split; [ exact (proj1 (proj2 H)) | exact (proj1 (proj2 (proj2 (proj2 H)))) ].
Defined.

(** Scenario: an inner source address of another peer counts one receive
    error and one frame error, and the buffer is freed. *)
Example unrouted_source_counted :
  stats (receive_data_packet (K := routing_script (Some 2%positive)) fresh_device
           inner_ipv4_packet (Some 1%positive) (Some outer_addr) false 0)
  = mk_stats 1 0 1 0.
Proof. vm_compute. reflexivity. Qed.

Lemma inner_ipv4_packet_has_header_routed :
  has_inner_ip_header (K := routing_script (Some 1%positive)) inner_ipv4_packet.
Proof.
  unfold has_inner_ip_header. split; [ | split ].
  - vm_compute. discriminate.
  - reflexivity.
  - left. reflexivity.
Defined.

Lemma routed_peer_reference_released_witness :
  0 <= 0 /\
  has_inner_ip_header (K := routing_script (Some 1%positive)) inner_ipv4_packet /\
  peer_refcount
    (receive_data_packet (K := routing_script (Some 1%positive)) fresh_device
       inner_ipv4_packet (Some 1%positive) (Some outer_addr) false 0) 1%positive
  = peer_refcount fresh_device 1%positive - 1.
Proof.
  split; [ lia | split; [ exact inner_ipv4_packet_has_header_routed | ] ].
  exact (proj1 (proj2 (proj2
           (routed_peer_reference_released (K := routing_script (Some 1%positive))
              fresh_device inner_ipv4_packet 1%positive outer_addr false 0
              (Z.le_refl 0) inner_ipv4_packet_has_header_routed)))).
Defined.

(** Scenario: a packet from an allowed source is handed to the network
    stack; the lookup is followed by the release of the handle it returned. *)
Example routed_packet_delivered :
  new_calls fresh_device
    (receive_data_packet (K := routing_script (Some 1%positive)) fresh_device
       inner_ipv4_packet (Some 1%positive) (Some outer_addr) false 0)
  = [ timers_data_received 1%positive;
      routing_table_lookup_src_call (inner_skb inner_ipv4_packet) (Some 1%positive);
      peer_put_call (Some 1%positive);
      netif_rx_call (inner_skb inner_ipv4_packet) NET_RX_SUCCESS;
      timers_any_authorized_packet_received 1%positive;
      socket_set_peer_addr 1%positive outer_addr;
      peer_put_call (Some 1%positive) ].
Proof. vm_compute. reflexivity. Qed.

Lemma receive_data_packet_releases_witness :
  early_return (Some 1%positive) (Some outer_addr) 0 = false /\
  peer_refcount
    (receive_data_packet (K := routing_script (Some 1%positive)) fresh_device
       inner_ipv4_packet (Some 1%positive) (Some outer_addr) false 0) 1%positive
  = peer_refcount fresh_device 1%positive - 1.
Proof.
  split; [ reflexivity | ].
  exact (proj1 (proj2 (proj2
           (receive_data_packet_releases (K := routing_script (Some 1%positive))
              fresh_device inner_ipv4_packet (Some 1%positive) (Some outer_addr)
              false 0)) 1%positive eq_refl eq_refl)).
Defined.

(** C3 as the specification states it fails: called with [err < 0] and a
    peer that is not NULL, the callback frees the buffer and returns without
    any [peer_put]; the count of the peer is what it was. *)
Lemma early_return_releases_nothing :
  new_calls fresh_device
    (receive_data_packet (K := routing_script (Some 1%positive)) fresh_device
       inner_ipv4_packet (Some 1%positive) (Some outer_addr) false (-1))
  = [dev_kfree_skb_call inner_ipv4_packet] /\
  count_calls is_peer_put
    (new_calls fresh_device
       (receive_data_packet (K := routing_script (Some 1%positive)) fresh_device
          inner_ipv4_packet (Some 1%positive) (Some outer_addr) false (-1))) <> 1%nat /\
  peer_refcount
    (receive_data_packet (K := routing_script (Some 1%positive)) fresh_device
       inner_ipv4_packet (Some 1%positive) (Some outer_addr) false (-1)) 1%positive
  = peer_refcount fresh_device 1%positive /\
  peer_refcount
    (receive_data_packet (K := routing_script (Some 1%positive)) fresh_device
       inner_ipv4_packet (Some 1%positive) (Some outer_addr) false (-1)) 1%positive
  <> peer_refcount fresh_device 1%positive - 1.
Proof.
  split; [ | split; [ | split ] ].
  - vm_compute. reflexivity.
  - vm_compute. discriminate.
  - vm_compute. reflexivity.
  - vm_compute. discriminate.
Qed.

(** ** The receive entry point *)

Section Entry.

Context {K : Collaborators}.

(** A parsed handshake datagram that can be linearized is queued exactly
    when the queue holds at most [MAX_QUEUED_HANDSHAKES] buffers. *)
Lemma packet_receive_admission (wg : wireguard_device) (skb skb' : sk_buff)
      (offset len : Z) :
  skb_data_offset skb = inr (offset, len) ->
  message_determine_type (skb_payload skb offset) len = MESSAGE_HANDSHAKE_INITIATION \/
  message_determine_type (skb_payload skb offset) len = MESSAGE_HANDSHAKE_RESPONSE \/
  message_determine_type (skb_payload skb offset) len = MESSAGE_HANDSHAKE_COOKIE ->
  skb_linearize skb = Some skb' ->
  packet_receive wg skb =
  if skb_queue_len (incoming_handshakes wg) <=? MAX_QUEUED_HANDSHAKES
  then call queue_work (skb_queue_tail skb' wg)
  else dev_kfree_skb skb wg.
Proof.
  intros Hparse Hkind Hlin. unfold packet_receive. rewrite Hparse.
  rewrite Z.gtb_ltb, Z.ltb_antisym.
  destruct Hkind as [-> | [-> | ->]]; rewrite Hlin;
    destruct (skb_queue_len (incoming_handshakes wg) <=? MAX_QUEUED_HANDSHAKES);
    reflexivity.
Qed.

End Entry.

(** C2: the code lets the queue grow beyond its capacity.  With
    [MAX_QUEUED_HANDSHAKES] buffers queued, one more handshake datagram is
    queued, not dropped, and the queue holds [MAX_QUEUED_HANDSHAKES + 1]
    buffers. *)
Lemma packet_receive_exceeds_capacity :
  skb_queue_len (incoming_handshakes (device_with_queue 4096)) = MAX_QUEUED_HANDSHAKES /\
  skb_queue_len
    (incoming_handshakes
       (packet_receive (K := no_cookie_script) (device_with_queue 4096)
          initiation_datagram)) = MAX_QUEUED_HANDSHAKES + 1 /\
  new_calls (device_with_queue 4096)
    (packet_receive (K := no_cookie_script) (device_with_queue 4096)
       initiation_datagram) = [queue_work].
Proof. repeat split; vm_compute; reflexivity. Qed.

(** The state of the previous lemma is reached from the empty queue by
    receiving the datagram again and again. *)
Example queue_grows_beyond_capacity :
  skb_queue_len
    (incoming_handshakes
       (fold_left (packet_receive (K := no_cookie_script))
          (repeat initiation_datagram (Z.to_nat (MAX_QUEUED_HANDSHAKES + 2)))
          fresh_device)) = MAX_QUEUED_HANDSHAKES + 1.
Proof. vm_compute. reflexivity. Qed.

(** ** Scenarios of the specification, run on the model *)

(** A handshake initiation with a valid MAC and no cookie, received while
    the queue is empty: it is queued, and the worker consumes it, answers
    with a handshake response and counts one packet of 148 bytes. *)
Example initiation_not_under_load :
  new_calls fresh_device
    (packet_process_queued_handshake_packets (K := no_cookie_script)
       (packet_receive (K := no_cookie_script) fresh_device initiation_datagram))
  = [ queue_work;
      cookie_validate_packet_call initiation_datagram 148 false VALID_MAC_BUT_NO_COOKIE;
      noise_handshake_consume_initiation_call
        (skb_payload initiation_datagram 28) (Some 1%positive);
      socket_set_peer_addr 1%positive [x0a; x00; x00; x02];
      packet_send_handshake_response 1%positive;
      timers_any_authorized_packet_received 1%positive;
      socket_set_peer_addr 1%positive [x0a; x00; x00; x02];
      peer_put_call (Some 1%positive);
      dev_kfree_skb_call initiation_datagram ] /\
  tstats
    (packet_process_queued_handshake_packets (K := no_cookie_script)
       (packet_receive (K := no_cookie_script) fresh_device initiation_datagram))
  = mk_tstats 148 1.
Proof. split; vm_compute; reflexivity. Qed.

(** The same initiation dequeued with [MAX_QUEUED_HANDSHAKES / 2 + 10]
    buffers left behind it: the worker answers with a cookie reply and counts
    nothing. *)
Example initiation_under_load :
  firstn 3
    (new_calls (device_with_queue 2059)
       (packet_process_queued_handshake_packets (K := no_cookie_script)
          (device_with_queue 2059)))
  = [ cookie_validate_packet_call initiation_datagram 148 true VALID_MAC_BUT_NO_COOKIE;
      packet_send_handshake_cookie initiation_datagram 148 42;
      dev_kfree_skb_call initiation_datagram ] /\
  tstats
    (packet_process_queued_handshake_packets (K := no_cookie_script)
       (device_with_queue 2059))
  = mk_tstats 0 0.
Proof. split; vm_compute; reflexivity. Qed.

(** A datagram whose UDP length field is 7 is dropped by the entry point:
    nothing is queued and no counter moves. *)
Example malformed_udp_length_dropped :
  packet_receive (K := no_cookie_script) fresh_device short_udp_datagram
  = dev_kfree_skb short_udp_datagram fresh_device.
Proof. reflexivity. Qed.

(** * Further properties of the receive path *)

(** The log of a state written as [calls wg] followed by single calls. *)
Ltac read_log :=
  cbn [calls call dev_kfree_skb peer_put peer_get set_peer_refcount set_stats
       set_tstats set_last_rx set_peer_rx_bytes set_incoming_handshakes rx_stats
       count_length_error count_frame_error count_dropped continue_processing
       packet_processed skb_queue_tail];
  repeat rewrite <- app_assoc; cbn [app].

Lemma new_calls_two (a b c : wireguard_device) (l1 l2 : list event) :
  calls b = calls a ++ l1 -> calls c = calls b ++ l2 ->
  calls c = calls a ++ l1 ++ l2.
Proof. intros H1 H2. rewrite H2, H1. now rewrite <- app_assoc. Qed.

(** ** [rx_stats] *)

Lemma to_u64_add_l (x y : Z) : to_u64 (to_u64 x + y) = to_u64 (x + y).
Proof. unfold to_u64. apply Zplus_mod_idemp_l. Qed.

Section Accounting.

Context {K : Collaborators}.

(** X1: two packets counted for one peer add up: the byte counters of the
    device and of the peer grow by the sum of the two lengths and the packet
    counter by two, all modulo 2^64; the byte counters of the other peers,
    the error counters, the queue and the log stay as they are. *)
Theorem rx_stats_accumulates (peer : peer_ptr) (a b : Z) (wg : wireguard_device) :
  let wg' := rx_stats peer b (rx_stats peer a wg) in
  rx_bytes (tstats wg') = to_u64 (rx_bytes (tstats wg) + (a + b)) /\
  rx_packets (tstats wg') = to_u64 (rx_packets (tstats wg) + 2) /\
  peer_rx_bytes wg' peer = to_u64 (peer_rx_bytes wg peer + (a + b)) /\
  (forall q, q <> peer -> peer_rx_bytes wg' q = peer_rx_bytes wg q) /\
  stats wg' = stats wg /\
  peer_refcount wg' = peer_refcount wg /\
  incoming_handshakes wg' = incoming_handshakes wg /\
  calls wg' = calls wg.
Proof.
  cbn. repeat split.
  - rewrite to_u64_add_l. f_equal. lia.
  - rewrite to_u64_add_l. f_equal. lia.
  - rewrite !upd_same, to_u64_add_l. f_equal. lia.
  - intros q Hq. now rewrite !upd_other.
Qed.

End Accounting.

(** ** The outer-frame parser: where the payload lies *)

Section PayloadBounds.

Context {K : Collaborators}.

(** X2: when the parser succeeds on a buffer whose length and UDP offset
    fit a C [int], the payload it reports lies within the buffer: it starts
    after the 8-byte UDP header, is at most 65527 bytes long and ends at or
    before [skb->len]; the buffer is at least 20 bytes long and its version
    field is 4 or 6. *)
Theorem skb_data_offset_within_buffer (skb : sk_buff) (data_offset data_len : Z)
        (Hrange : skb_in_range skb)
        (Hparse : skb_data_offset skb = inr (data_offset, data_len)) :
  8 <= data_offset /\
  0 <= data_len <= 65527 /\
  data_offset + data_len <= skb_len skb /\
  20 <= skb_len skb /\
  (ip_hdr_version skb = 4 \/ (ip_hdr_version skb = 6 /\ 40 <= skb_len skb)).
Proof.
  destruct Hrange as [Hlen Hoff].
  pose proof (udp_length_range skb) as Hudp.
  revert Hparse.
  unfold skb_data_offset, udp_offset, sizeof_iphdr, sizeof_ipv6hdr, sizeof_udphdr.
  fold (udp_length skb).
  rewrite (to_size_t_small (transport_header skb - data skb)) by lia.
  rewrite (to_size_t_small (transport_header skb - data skb + 8)) by lia.
  replace (transport_header skb + 8 - data skb)
    with (transport_header skb - data skb + 8) by lia.
  rewrite (to_size_t_small (transport_header skb - data skb + 8)) by lia.
  destruct (Z.ltb_spec (skb_len skb) 20) as [H1 | H1]; [ discriminate | ].
  destruct (Z.eqb_spec (ip_hdr_version skb) 4) as [H4 | H4];
    destruct (Z.eqb_spec (ip_hdr_version skb) 6) as [H6 | H6]; cbn [negb andb];
    try discriminate.
  all: try (destruct (Z.ltb_spec (skb_len skb) 40) as [H40 | H40]; [ discriminate | ]).
  all: destruct (Z.gtb_spec (transport_header skb - data skb + 8) (skb_len skb))
    as [H8 | H8]; [ discriminate | ].
  all: destruct (Z.ltb_spec (udp_length skb) 8) as [Hu | Hu]; [ discriminate | ].
  all: rewrite (to_size_t_small (skb_len skb - (transport_header skb - data skb)))
    by lia.
  all: destruct (Z.gtb_spec (udp_length skb)
                            (skb_len skb - (transport_header skb - data skb)))
    as [Hr | Hr]; [ discriminate | ].
  all: rewrite (to_size_t_small (udp_length skb - 8)) by lia.
  all: destruct (negb (pskb_may_pull skb _)); [ discriminate | ].
  all: intros Heq; injection Heq as <- <-.
  all: repeat split; try lia.
  all: first [ left; assumption | right; split; [ assumption | lia ] | lia ].
Qed.

End PayloadBounds.

Lemma skb_data_offset_within_buffer_witness :
  skb_in_range initiation_datagram /\
  skb_data_offset (K := no_cookie_script) initiation_datagram = inr (28, 148) /\
  28 + 148 <= skb_len initiation_datagram.
Proof.
  assert (Hrange : skb_in_range initiation_datagram)
    by (unfold skb_in_range; cbn; lia).
  split; [ exact Hrange | split; [ reflexivity | ] ].
  exact (proj1 (proj2 (proj2
           (skb_data_offset_within_buffer (K := no_cookie_script) initiation_datagram
              28 148 Hrange eq_refl)))).
Defined.

(** ** The handshake handler: what it leaves alone *)

Section HandlerFrame.

Context {K : Collaborators}.

(** Walk every path of [receive_handshake_packet]. *)
Ltac handshake_paths :=
  unfold receive_handshake_packet, handshake_switch, handshake_bookkeeping,
    update_latest_addr;
  repeat match goal with
         | |- context [match ?x with _ => _ end] =>
           match type of x with
           | option _ => destruct x
           | bool => destruct x
           | message_type => destruct x
           | cookie_mac_state => destruct x
           end
         end.

Lemma handshake_log_clean (wg : wireguard_device) (data : list byte) (len : Z)
      (skb : sk_buff) :
  exists l,
    calls (receive_handshake_packet wg data len skb) = calls wg ++ l /\
    filter is_buffer_or_data_call l = [].
Proof.
  handshake_paths; read_log; eexists; split; reflexivity.
Qed.

Lemma handshake_keeps_device (wg : wireguard_device) (data : list byte) (len : Z)
      (skb : sk_buff) :
  incoming_handshakes (receive_handshake_packet wg data len skb)
  = incoming_handshakes wg /\
  stats (receive_handshake_packet wg data len skb) = stats wg /\
  last_rx (receive_handshake_packet wg data len skb) = last_rx wg.
Proof.
  handshake_paths; repeat split; reflexivity.
Qed.

Lemma handshake_keeps_refcount (wg : wireguard_device) (data : list byte) (len : Z)
      (skb : sk_buff) (q : peer_ptr) :
  peer_refcount (receive_handshake_packet wg data len skb) q = peer_refcount wg q.
Proof.
  handshake_paths; cbn; unfold upd; try reflexivity;
    match goal with
    | |- context [Pos.eqb q ?p] => destruct (Pos.eqb_spec q p); [ subst | ]
    end; rewrite ?Pos.eqb_refl; lia.
Qed.

(** X3: handling a handshake message never frees or queues a buffer, never
    hands one to the network stack or to the decryption pipeline, and never
    re-queues the work item; the handshake queue, the error counters of the
    device and [last_rx] are left as they are.  The buffer stays with the
    worker, which frees it. *)
Theorem receive_handshake_packet_frame (wg : wireguard_device) (data : list byte)
        (len : Z) (skb : sk_buff) :
  let wg' := receive_handshake_packet wg data len skb in
  (exists l, calls wg' = calls wg ++ l /\ filter is_buffer_or_data_call l = []) /\
  incoming_handshakes wg' = incoming_handshakes wg /\
  stats wg' = stats wg /\
  last_rx wg' = last_rx wg.
Proof.
  cbn zeta. split.
  - apply handshake_log_clean.
  - apply handshake_keeps_device.
Qed.

(** X4: whatever happens to a handshake message, every peer reference
    count ends as it started: the reference that comes with the peer a
    consumer returns is released before the handler returns.  [peer_put] is
    called at most once, and only on the handle that the consumer of the
    message's type returned. *)
Theorem receive_handshake_packet_refcount (wg : wireguard_device) (data : list byte)
        (len : Z) (skb : sk_buff) :
  let wg' := receive_handshake_packet wg data len skb in
  (forall q, peer_refcount wg' q = peer_refcount wg q) /\
  (count_calls is_peer_put (new_calls wg wg') <= 1)%nat /\
  (forall p, In (peer_put_call p) (new_calls wg wg') ->
     (message_determine_type data len = MESSAGE_HANDSHAKE_INITIATION /\
      noise_handshake_consume_initiation data = p) \/
     (message_determine_type data len = MESSAGE_HANDSHAKE_RESPONSE /\
      noise_handshake_consume_response data = p)).
Proof.
  cbn zeta. split; [ intros q; apply handshake_keeps_refcount | ].
  unfold receive_handshake_packet, handshake_switch, handshake_bookkeeping,
    update_latest_addr.
  destruct (message_determine_type data len);
    destruct (cookie_validate_packet skb data len (under_load wg));
    destruct (under_load wg);
    cbn [mac_state_eqb andb orb negb];
    try destruct (noise_handshake_consume_initiation data) eqn:Hinit;
    try destruct (noise_handshake_consume_response data) eqn:Hresp;
    try destruct (noise_handshake_begin_session _);
    try destruct (socket_addr_from_skb skb);
    unfold new_calls; read_log;
    rewrite ?skipn_app, ?skipn_all, ?Nat.sub_diag; cbn [skipn app];
    (split; [ cbn; lia | ]);
    intros handle Hin; cbn [In] in Hin;
    repeat match goal with
           | H : _ \/ _ |- _ => destruct H as [H | H]
           end;
    try discriminate; try contradiction;
    injection Hin as <-; auto.
Qed.

(** X5: [BUG] is reached only for a message that is neither a handshake
    initiation, a handshake response nor a cookie reply, and only after the
    cookie checker has let it through. *)
Theorem handshake_bug_only_on_wrong_type (wg : wireguard_device) (data : list byte)
        (len : Z) (skb : sk_buff)
        (Hbug : In BUG (new_calls wg (receive_handshake_packet wg data len skb))) :
  (message_determine_type data len = MESSAGE_INVALID \/
   message_determine_type data len = MESSAGE_DATA) /\
  decision_matrix_amended (under_load wg)
    (cookie_validate_packet skb data len (under_load wg)) <> Drop.
Proof.
  revert Hbug. unfold receive_handshake_packet, handshake_switch,
    handshake_bookkeeping, update_latest_addr.
  destruct (message_determine_type data len) eqn:Hmt;
    destruct (under_load wg);
    destruct (cookie_validate_packet _ _ _ _);
    cbn [mac_state_eqb andb orb negb decision_matrix_amended];
    repeat match goal with
           | |- context [match ?x with _ => _ end] =>
             match type of x with
             | option _ => destruct x
             | bool => destruct x
             end
           end;
    unfold new_calls; read_log;
    rewrite ?skipn_app, ?skipn_all, ?Nat.sub_diag; cbn [skipn app In];
    intros Hbug;
    try (split; [ auto | discriminate ]);
    exfalso; intuition discriminate.
Qed.

End HandlerFrame.

Lemma handshake_bug_only_on_wrong_type_witness :
  In BUG
    (new_calls fresh_device
       (receive_handshake_packet (K := no_cookie_script) fresh_device
          [x04; x00; x00; x00] 4 initiation_datagram)) /\
  (message_determine_type (Collaborators := no_cookie_script) [x04; x00; x00; x00] 4
   = MESSAGE_INVALID \/
   message_determine_type (Collaborators := no_cookie_script) [x04; x00; x00; x00] 4
   = MESSAGE_DATA).
Proof.
  assert (Hbug : In BUG
    (new_calls fresh_device
       (receive_handshake_packet (K := no_cookie_script) fresh_device
          [x04; x00; x00; x00] 4 initiation_datagram)))
    by (vm_compute; right; right; left; reflexivity).
  split; [ exact Hbug | ].
  exact (proj1 (handshake_bug_only_on_wrong_type (K := no_cookie_script) fresh_device
                  [x04; x00; x00; x00] 4 initiation_datagram Hbug)).
Defined.

(** ** The handshake handler: accepted and rejected messages *)

Section HandlerPaths.

Context {K : Collaborators}.

(** The cookie check lets the message through without asking for a
    cookie. *)
Lemma accepted_unfold (wg : wireguard_device) (data : list byte) (len : Z)
      (skb : sk_buff) :
  message_determine_type data len <> MESSAGE_HANDSHAKE_COOKIE ->
  decision_matrix_amended (under_load wg)
    (cookie_validate_packet skb data len (under_load wg)) = Accept ->
  receive_handshake_packet wg data len skb =
  handshake_switch (message_determine_type data len) false
    (after_validation wg data len skb) data len skb.
Proof.
  intros Hkind Hacc. unfold receive_handshake_packet, after_validation.
  destruct (message_determine_type data len); try congruence;
    destruct (under_load wg), (cookie_validate_packet _ _ _ _);
    cbn in Hacc; try discriminate Hacc; reflexivity.
Qed.

(** X6: an accepted handshake initiation for which the consumer finds a
    peer makes exactly one handshake response for that peer, counts one
    received packet of [len] bytes for the device and the peer, updates the
    address of the peer from the buffer before the response and again in the
    bookkeeping, and releases the reference of the peer last. *)
Theorem accepted_initiation (wg : wireguard_device) (data : list byte) (len : Z)
        (skb : sk_buff) (peer : peer_ptr)
        (Hkind : message_determine_type data len = MESSAGE_HANDSHAKE_INITIATION)
        (Haccept : decision_matrix_amended (under_load wg)
                     (cookie_validate_packet skb data len (under_load wg)) = Accept)
        (Hpeer : noise_handshake_consume_initiation data = Some peer) :
  let wg' := receive_handshake_packet wg data len skb in
  new_calls wg wg' =
    [ cookie_validate_packet_call skb len (under_load wg)
        (cookie_validate_packet skb data len (under_load wg));
      noise_handshake_consume_initiation_call data (Some peer) ]
    ++ latest_addr_calls peer skb
    ++ [ packet_send_handshake_response peer;
         timers_any_authorized_packet_received peer ]
    ++ latest_addr_calls peer skb
    ++ [ peer_put_call (Some peer) ] /\
  count_calls is_handshake_response (new_calls wg wg') = 1%nat /\
  count_calls is_cookie_reply (new_calls wg wg') = 0%nat /\
  rx_bytes (tstats wg') = to_u64 (rx_bytes (tstats wg) + len) /\
  rx_packets (tstats wg') = to_u64 (rx_packets (tstats wg) + 1) /\
  peer_rx_bytes wg' peer = to_u64 (peer_rx_bytes wg peer + len).
Proof.
  intros wg'.
  assert (Hnew : new_calls wg wg' =
    [ cookie_validate_packet_call skb len (under_load wg)
        (cookie_validate_packet skb data len (under_load wg));
      noise_handshake_consume_initiation_call data (Some peer) ]
    ++ latest_addr_calls peer skb
    ++ [ packet_send_handshake_response peer;
         timers_any_authorized_packet_received peer ]
    ++ latest_addr_calls peer skb
    ++ [ peer_put_call (Some peer) ]).
  { apply new_calls_app. subst wg'.
    rewrite accepted_unfold by (assumption || congruence).
    rewrite Hkind. unfold handshake_switch, handshake_bookkeeping, update_latest_addr,
      latest_addr_calls, after_validation.
    rewrite Hpeer. destruct (socket_addr_from_skb skb); read_log; reflexivity. }
  rewrite Hnew. subst wg'.
  rewrite accepted_unfold by (assumption || congruence).
  rewrite Hkind. unfold handshake_switch, handshake_bookkeeping, update_latest_addr,
    latest_addr_calls, after_validation.
  rewrite Hpeer. destruct (socket_addr_from_skb skb); cbn; rewrite ?upd_same;
    repeat split; reflexivity.
Qed.

(** X7: an accepted handshake response for which the consumer finds a peer
    is followed by [noise_handshake_begin_session]; when the session begins
    the timers are told (key created, then handshake complete) and the send
    queue of the peer is flushed exactly once, otherwise none of the three
    happens.  In both cases the packet is counted, the address of the peer
    is updated and its reference is released last. *)
Theorem accepted_response (wg : wireguard_device) (data : list byte) (len : Z)
        (skb : sk_buff) (peer : peer_ptr)
        (Hkind : message_determine_type data len = MESSAGE_HANDSHAKE_RESPONSE)
        (Haccept : decision_matrix_amended (under_load wg)
                     (cookie_validate_packet skb data len (under_load wg)) = Accept)
        (Hpeer : noise_handshake_consume_response data = Some peer) :
  let wg' := receive_handshake_packet wg data len skb in
  let began := noise_handshake_begin_session peer in
  new_calls wg wg' =
    [ cookie_validate_packet_call skb len (under_load wg)
        (cookie_validate_packet skb data len (under_load wg));
      noise_handshake_consume_response_call data (Some peer);
      noise_handshake_begin_session_call peer began ]
    ++ (if began
        then [ timers_ephemeral_key_created peer;
               timers_handshake_complete peer;
               packet_send_queue peer ]
        else [])
    ++ [ timers_any_authorized_packet_received peer ]
    ++ latest_addr_calls peer skb
    ++ [ peer_put_call (Some peer) ] /\
  count_calls is_send_queue (new_calls wg wg') = (if began then 1 else 0)%nat /\
  count_calls is_handshake_response (new_calls wg wg') = 0%nat /\
  rx_bytes (tstats wg') = to_u64 (rx_bytes (tstats wg) + len) /\
  rx_packets (tstats wg') = to_u64 (rx_packets (tstats wg) + 1) /\
  peer_rx_bytes wg' peer = to_u64 (peer_rx_bytes wg peer + len).
Proof.
  intros wg' began.
  assert (Hnew : new_calls wg wg' =
    [ cookie_validate_packet_call skb len (under_load wg)
        (cookie_validate_packet skb data len (under_load wg));
      noise_handshake_consume_response_call data (Some peer);
      noise_handshake_begin_session_call peer began ]
    ++ (if began
        then [ timers_ephemeral_key_created peer;
               timers_handshake_complete peer;
               packet_send_queue peer ]
        else [])
    ++ [ timers_any_authorized_packet_received peer ]
    ++ latest_addr_calls peer skb
    ++ [ peer_put_call (Some peer) ]).
  { apply new_calls_app. subst wg'.
    rewrite accepted_unfold by (assumption || congruence).
    rewrite Hkind. unfold handshake_switch, handshake_bookkeeping, update_latest_addr,
      latest_addr_calls, after_validation.
    rewrite Hpeer. fold began.
    destruct began, (socket_addr_from_skb skb); read_log; reflexivity. }
  rewrite Hnew. subst wg'.
  rewrite accepted_unfold by (assumption || congruence).
  rewrite Hkind. unfold handshake_switch, handshake_bookkeeping, update_latest_addr,
    latest_addr_calls, after_validation.
  rewrite Hpeer. fold began.
  destruct began, (socket_addr_from_skb skb); cbn; rewrite ?upd_same;
    repeat split; reflexivity.
Qed.

(** X8: an accepted handshake initiation or response that the consumer
    rejects (it returns NULL) ends there: after the cookie check and the
    consumer nothing is called, no packet is counted, no address is updated
    and no response, cookie reply or queue flush is made. *)
Theorem rejected_by_consumer (wg : wireguard_device) (data : list byte) (len : Z)
        (skb : sk_buff)
        (Haccept : decision_matrix_amended (under_load wg)
                     (cookie_validate_packet skb data len (under_load wg)) = Accept)
        (Hnone :
           (message_determine_type data len = MESSAGE_HANDSHAKE_INITIATION /\
            noise_handshake_consume_initiation data = None) \/
           (message_determine_type data len = MESSAGE_HANDSHAKE_RESPONSE /\
            noise_handshake_consume_response data = None)) :
  let wg' := receive_handshake_packet wg data len skb in
  new_calls wg wg' =
    [ cookie_validate_packet_call skb len (under_load wg)
        (cookie_validate_packet skb data len (under_load wg));
      match message_determine_type data len with
      | MESSAGE_HANDSHAKE_INITIATION => noise_handshake_consume_initiation_call data None
      | _ => noise_handshake_consume_response_call data None
      end ] /\
  tstats wg' = tstats wg /\
  stats wg' = stats wg /\
  peer_rx_bytes wg' = peer_rx_bytes wg /\
  peer_refcount wg' = peer_refcount wg /\
  incoming_handshakes wg' = incoming_handshakes wg.
Proof.
  intros wg'. subst wg'.
  rewrite accepted_unfold by (assumption || (destruct Hnone as [[H _] | [H _]]; congruence)).
  unfold handshake_switch, after_validation.
  destruct Hnone as [[-> Hnone] | [-> Hnone]]; rewrite Hnone;
    (split; [ apply new_calls_app; read_log; reflexivity | repeat split; reflexivity ]).
Qed.

End HandlerPaths.

Lemma accepted_initiation_witness :
  message_determine_type (Collaborators := no_cookie_script)
    (skb_payload initiation_datagram 28) 148 = MESSAGE_HANDSHAKE_INITIATION /\
  noise_handshake_consume_initiation (Collaborators := no_cookie_script)
    (skb_payload initiation_datagram 28) = Some 1%positive /\
  count_calls is_handshake_response
    (new_calls fresh_device
       (receive_handshake_packet (K := no_cookie_script) fresh_device
          (skb_payload initiation_datagram 28) 148 initiation_datagram)) = 1%nat.
Proof.
  split; [ reflexivity | split; [ reflexivity | ] ].
  exact (proj1 (proj2
           (accepted_initiation (K := no_cookie_script) fresh_device
              (skb_payload initiation_datagram 28) 148 initiation_datagram 1%positive
              eq_refl eq_refl eq_refl))).
Defined.

Lemma accepted_response_witness :
  message_determine_type (Collaborators := no_cookie_script)
    (x02 :: repeat x00 91) 92 = MESSAGE_HANDSHAKE_RESPONSE /\
  noise_handshake_consume_response (Collaborators := no_cookie_script)
    (x02 :: repeat x00 91) = Some 1%positive /\
  count_calls is_send_queue
    (new_calls fresh_device
       (receive_handshake_packet (K := no_cookie_script) fresh_device
          (x02 :: repeat x00 91) 92 initiation_datagram)) = 1%nat.
Proof.
  split; [ reflexivity | split; [ reflexivity | ] ].
  exact (proj1 (proj2
           (accepted_response (K := no_cookie_script) fresh_device
              (x02 :: repeat x00 91) 92 initiation_datagram 1%positive
              eq_refl eq_refl eq_refl))).
Defined.

Lemma rejected_by_consumer_witness :
  noise_handshake_consume_initiation
    (Collaborators := scripted VALID_MAC_BUT_NO_COOKIE None false None NET_RX_SUCCESS)
    (skb_payload initiation_datagram 28) = None /\
  tstats
    (receive_handshake_packet
       (K := scripted VALID_MAC_BUT_NO_COOKIE None false None NET_RX_SUCCESS)
       fresh_device (skb_payload initiation_datagram 28) 148 initiation_datagram)
  = tstats fresh_device.
Proof.
  split; [ reflexivity | ].
  exact (proj1 (proj2
           (rejected_by_consumer
              (K := scripted VALID_MAC_BUT_NO_COOKIE None false None NET_RX_SUCCESS)
              fresh_device (skb_payload initiation_datagram 28) 148 initiation_datagram
              eq_refl (or_introl (conj eq_refl eq_refl))))).
Defined.

(** ** The handshake worker: a whole burst *)

Section Burst.

Context {K : Collaborators}.

Lemma process_dequeued_log (skb : sk_buff) (wg : wireguard_device) :
  exists l,
    calls (process_dequeued skb wg) = calls wg ++ l ++ [dev_kfree_skb_call skb] /\
    filter is_buffer_or_data_call l = [].
Proof.
  unfold process_dequeued, dev_kfree_skb.
  destruct (skb_data_offset skb) as [e | [offset len]].
  - exists []. split; reflexivity.
  - destruct (handshake_log_clean wg (skb_payload skb offset) len skb)
      as [l [Hl Hnone]].
    exists l. split; [ | exact Hnone ].
    rewrite calls_call, Hl. now rewrite <- app_assoc.
Qed.

Lemma process_dequeued_frame (skb : sk_buff) (wg : wireguard_device) :
  incoming_handshakes (process_dequeued skb wg) = incoming_handshakes wg /\
  stats (process_dequeued skb wg) = stats wg /\
  last_rx (process_dequeued skb wg) = last_rx wg /\
  forall q, peer_refcount (process_dequeued skb wg) q = peer_refcount wg q.
Proof.
  unfold process_dequeued, dev_kfree_skb.
  destruct (skb_data_offset skb) as [e | [offset len]].
  - repeat split; reflexivity.
  - destruct (handshake_keeps_device wg (skb_payload skb offset) len skb)
      as [Hq [Hs Hl]].
    cbn [incoming_handshakes stats last_rx peer_refcount call].
    repeat split; try assumption.
    intros q. apply handshake_keeps_refcount.
Qed.

Lemma filter_buffer_is_kfree (l : list event) :
  filter is_buffer_or_data_call l = [] -> filter is_kfree_skb l = [].
Proof.
  induction l as [ | e l IH]; [ reflexivity | ].
  cbn. destruct e; cbn; try discriminate; auto.
Qed.

Lemma filter_buffer_is_queue_work (l : list event) :
  filter is_buffer_or_data_call l = [] -> filter is_queue_work l = [].
Proof.
  induction l as [ | e l IH]; [ reflexivity | ].
  cbn. destruct e; cbn; try discriminate; auto.
Qed.

Lemma filter_buffer_is_netif_rx (l : list event) :
  filter is_buffer_or_data_call l = [] -> filter is_netif_rx l = [].
Proof.
  induction l as [ | e l IH]; [ reflexivity | ].
  cbn. destruct e; cbn; try discriminate; auto.
Qed.

(** What a burst of at most [n] buffers does to the queue and to the log. *)
Lemma handshake_burst_spec (n : nat) (wg : wireguard_device) :
  incoming_handshakes (handshake_burst n wg) = skipn n (incoming_handshakes wg) /\
  stats (handshake_burst n wg) = stats wg /\
  last_rx (handshake_burst n wg) = last_rx wg /\
  (forall q, peer_refcount (handshake_burst n wg) q = peer_refcount wg q) /\
  exists l,
    calls (handshake_burst n wg) = calls wg ++ l /\
    filter is_kfree_skb l = map dev_kfree_skb_call (firstn n (incoming_handshakes wg)) /\
    filter is_netif_rx l = [] /\
    count_calls is_queue_work l =
      (if (0 <? n)%nat && (n <=? length (incoming_handshakes wg))%nat then 1 else 0)%nat.
Proof.
  revert wg. induction n as [ | n IH]; intros wg.
  - cbn. repeat split; try reflexivity.
    exists []. rewrite app_nil_r. repeat split; reflexivity.
  - cbn [handshake_burst]. unfold skb_dequeue.
    destruct (incoming_handshakes wg) as [ | skb rest] eqn:Hq.
    + rewrite Hq. cbn. repeat split; try reflexivity.
      exists []. rewrite app_nil_r. repeat split; reflexivity.
    + set (wg1 := set_incoming_handshakes rest wg).
      destruct (process_dequeued_frame skb wg1) as [Hq1 [Hs1 [Hl1 Hr1]]].
      destruct (process_dequeued_log skb wg1) as [l1 [Hlog1 Hnone1]].
      cbn [incoming_handshakes stats last_rx peer_refcount calls
           set_incoming_handshakes wg1] in Hq1, Hs1, Hl1, Hr1, Hlog1.
      destruct n as [ | n'].
      * cbn [incoming_handshakes stats last_rx peer_refcount call skipn].
        repeat split; try assumption.
        exists (l1 ++ [dev_kfree_skb_call skb] ++ [queue_work]).
        rewrite calls_call, Hlog1.
        split; [ now rewrite <- !app_assoc | ].
        unfold count_calls. rewrite !filter_app.
        rewrite (filter_buffer_is_kfree l1 Hnone1),
          (filter_buffer_is_netif_rx l1 Hnone1),
          (filter_buffer_is_queue_work l1 Hnone1).
        repeat split; reflexivity.
      * destruct (IH (process_dequeued skb wg1)) as [Hq2 [Hs2 [Hl2 [Hr2 [l2 Hlog2]]]]].
        destruct Hlog2 as [Hlog2 [Hfree2 [Hrx2 Hqw2]]].
        rewrite Hq1 in Hq2, Hfree2, Hqw2.
        split; [ rewrite Hq2; reflexivity | ].
        split; [ congruence | ].
        split; [ congruence | ].
        split; [ intros q; rewrite Hr2; apply Hr1 | ].
        exists (l1 ++ [dev_kfree_skb_call skb] ++ l2).
        split; [ rewrite Hlog2, Hlog1; now rewrite <- !app_assoc | ].
        unfold count_calls in *. rewrite !filter_app.
        rewrite (filter_buffer_is_kfree l1 Hnone1),
          (filter_buffer_is_netif_rx l1 Hnone1),
          (filter_buffer_is_queue_work l1 Hnone1).
        cbn [filter is_kfree_skb is_netif_rx is_queue_work app].
        rewrite Hfree2, Hrx2, Hqw2.
        repeat split; reflexivity.
Qed.

(** X9: a run of the handshake worker that does not hit [BUG] (no message
    of a wrong type gets past the cookie check) takes the first
    [MAX_BURST_HANDSHAKES] buffers off the queue, or all of them when there
    are fewer, and leaves the others queued in their order; it frees exactly
    the buffers it took, each once and in queue order, and hands nothing to
    the network stack. *)
Theorem worker_drains_burst (wg : wireguard_device)
        (Hnobug : count_calls is_BUG
                    (new_calls wg (packet_process_queued_handshake_packets wg)) = 0%nat) :
  let wg' := packet_process_queued_handshake_packets wg in
  incoming_handshakes wg' = skipn 8 (incoming_handshakes wg) /\
  filter is_kfree_skb (new_calls wg wg') =
    map dev_kfree_skb_call (firstn 8 (incoming_handshakes wg)) /\
  count_calls is_netif_rx (new_calls wg wg') = 0%nat.
Proof.
  cbn zeta. unfold packet_process_queued_handshake_packets.
  change (Z.to_nat MAX_BURST_HANDSHAKES) with 8%nat.
  destruct (handshake_burst_spec 8 wg) as [Hq [_ [_ [_ [l [Hlog [Hfree [Hrx _]]]]]]]].
  rewrite (new_calls_app _ _ _ Hlog).
  unfold count_calls. rewrite Hrx. repeat split; assumption.
Qed.

(** X10: in a run that does not hit [BUG], the worker re-queues its work
    item exactly when it has processed [MAX_BURST_HANDSHAKES] buffers, that
    is when at least that many were queued, also when none is left behind
    them; with fewer buffers it returns without re-queueing. *)
Theorem worker_requeues_after_full_burst (wg : wireguard_device)
        (Hnobug : count_calls is_BUG
                    (new_calls wg (packet_process_queued_handshake_packets wg)) = 0%nat) :
  count_calls is_queue_work
    (new_calls wg (packet_process_queued_handshake_packets wg)) =
  (if (8 <=? length (incoming_handshakes wg))%nat then 1 else 0)%nat.
Proof.
  unfold packet_process_queued_handshake_packets.
  change (Z.to_nat MAX_BURST_HANDSHAKES) with 8%nat.
  destruct (handshake_burst_spec 8 wg) as [_ [_ [_ [_ [l [Hlog [_ [_ Hqw]]]]]]]].
  rewrite (new_calls_app _ _ _ Hlog). exact Hqw.
Qed.

(** X11: a run of the handshake worker, whatever the queued messages are,
    leaves every peer reference count, the error counters of the device and
    [last_rx] as they were. *)
Theorem worker_keeps_references (wg : wireguard_device) :
  let wg' := packet_process_queued_handshake_packets wg in
  (forall q, peer_refcount wg' q = peer_refcount wg q) /\
  stats wg' = stats wg /\
  last_rx wg' = last_rx wg.
Proof.
  cbn zeta. unfold packet_process_queued_handshake_packets.
  destruct (handshake_burst_spec (Z.to_nat MAX_BURST_HANDSHAKES) wg)
    as [_ [Hs [Hl [Hr _]]]].
  repeat split; assumption.
Qed.

End Burst.

Lemma worker_drains_burst_witness :
  count_calls is_BUG
    (new_calls (device_with_queue 9)
       (packet_process_queued_handshake_packets (K := no_cookie_script)
          (device_with_queue 9))) = 0%nat /\
  incoming_handshakes
    (packet_process_queued_handshake_packets (K := no_cookie_script)
       (device_with_queue 9))
  = skipn 8 (incoming_handshakes (device_with_queue 9)).
Proof.
  assert (Hnobug :
    count_calls is_BUG
      (new_calls (device_with_queue 9)
         (packet_process_queued_handshake_packets (K := no_cookie_script)
            (device_with_queue 9))) = 0%nat)
    by (vm_compute; reflexivity).
  split; [ exact Hnobug | ].
  exact (proj1 (worker_drains_burst (K := no_cookie_script) (device_with_queue 9)
                  Hnobug)).
Defined.

Lemma worker_requeues_after_full_burst_witness :
  count_calls is_BUG
    (new_calls (device_with_queue 8)
       (packet_process_queued_handshake_packets (K := no_cookie_script)
          (device_with_queue 8))) = 0%nat /\
  count_calls is_queue_work
    (new_calls (device_with_queue 8)
       (packet_process_queued_handshake_packets (K := no_cookie_script)
          (device_with_queue 8)))
  = (if (8 <=? length (incoming_handshakes (device_with_queue 8)))%nat
     then 1 else 0)%nat.
Proof.
  assert (Hnobug :
    count_calls is_BUG
      (new_calls (device_with_queue 8)
         (packet_process_queued_handshake_packets (K := no_cookie_script)
            (device_with_queue 8))) = 0%nat)
    by (vm_compute; reflexivity).
  split; [ exact Hnobug | ].
  exact (worker_requeues_after_full_burst (K := no_cookie_script) (device_with_queue 8)
           Hnobug).
Defined.

(** Nine queued buffers: eight are processed, one stays, the work item is
    queued again. *)
Example worker_burst_of_nine :
  length (incoming_handshakes
            (packet_process_queued_handshake_packets (K := no_cookie_script)
               (device_with_queue 9))) = 1%nat /\
  count_calls is_queue_work
    (new_calls (device_with_queue 9)
       (packet_process_queued_handshake_packets (K := no_cookie_script)
          (device_with_queue 9))) = 1%nat.
Proof. split; vm_compute; reflexivity. Qed.

(** ** The receive entry point: where a datagram goes *)

Section EntryPaths.

Context {K : Collaborators}.

(** X12: the entry point disposes of every datagram in exactly one way: it
    frees it, or appends it to the tail of the handshake queue, or hands it
    to the decryption pipeline.  The work item is queued exactly when a
    buffer was appended.  Nothing is handed to the network stack, and no
    counter and no peer reference count moves: a datagram dropped here is
    not counted as a receive error. *)
Theorem packet_receive_disposes_once (wg : wireguard_device) (skb : sk_buff) :
  let wg' := packet_receive wg skb in
  exists queued,
    incoming_handshakes wg' = incoming_handshakes wg ++ queued /\
    (count_calls is_kfree_skb (new_calls wg wg')
     + count_calls is_consume_data (new_calls wg wg')
     + length queued = 1)%nat /\
    count_calls is_queue_work (new_calls wg wg') = length queued /\
    count_calls is_netif_rx (new_calls wg wg') = 0%nat /\
    stats wg' = stats wg /\
    tstats wg' = tstats wg /\
    peer_rx_bytes wg' = peer_rx_bytes wg /\
    peer_refcount wg' = peer_refcount wg.
Proof.
  cbn zeta. unfold packet_receive.
  destruct (skb_data_offset skb) as [e | [offset len]];
    [ | destruct (message_determine_type (skb_payload skb offset) len);
        try (destruct (skb_queue_len (incoming_handshakes wg) >? MAX_QUEUED_HANDSHAKES);
             [ | destruct (skb_linearize skb) as [skb' | ] ]) ].
  all: match goal with
       | |- context [skb_queue_tail ?b _] => exists [b]
       | _ => exists []
       end.
  all: split; [ cbn; rewrite ?app_nil_r; reflexivity | ].
  all: unfold new_calls; read_log;
    rewrite ?skipn_app, ?skipn_all, ?Nat.sub_diag; cbn [skipn app].
  all: repeat split; reflexivity.
Qed.

(** A datagram adds at most one buffer, and none to a queue that already
    holds more than [MAX_QUEUED_HANDSHAKES]. *)
Lemma packet_receive_queue_bound (wg : wireguard_device) (skb : sk_buff) :
  skb_queue_len (incoming_handshakes wg) <= MAX_QUEUED_HANDSHAKES + 1 ->
  skb_queue_len (incoming_handshakes (packet_receive wg skb))
  <= MAX_QUEUED_HANDSHAKES + 1.
Proof.
  intros Hbound. unfold packet_receive.
  destruct (skb_data_offset skb) as [e | [offset len]]; [ exact Hbound | ].
  destruct (message_determine_type (skb_payload skb offset) len);
    try exact Hbound;
    destruct (Z.gtb_spec (skb_queue_len (incoming_handshakes wg)) MAX_QUEUED_HANDSHAKES)
      as [Hfull | Hroom]; try exact Hbound;
    destruct (skb_linearize skb) as [skb' | ]; try exact Hbound;
    cbn [incoming_handshakes call skb_queue_tail set_incoming_handshakes];
    unfold skb_queue_len in *; rewrite length_app; cbn [length];
    rewrite Nat.add_1_r, Nat2Z.inj_succ; lia.
Qed.

Lemma receive_data_packet_queue (wg : wireguard_device) (skb : sk_buff)
      (peer : option peer_ptr) (addr : option sockaddr_storage)
      (used_new_key : bool) (err : Z) :
  incoming_handshakes (receive_data_packet wg skb peer addr used_new_key err)
  = incoming_handshakes wg.
Proof.
  unfold receive_data_packet, receive_routed.
  destruct peer, addr; try reflexivity;
    repeat match goal with
           | |- context [if ?c then _ else _] => destruct c
           end;
    try reflexivity;
    destruct (routing_table_lookup_src _); reflexivity.
Qed.

Lemma worker_queue_shrinks (wg : wireguard_device) :
  skb_queue_len (incoming_handshakes (packet_process_queued_handshake_packets wg))
  <= skb_queue_len (incoming_handshakes wg).
Proof.
  unfold packet_process_queued_handshake_packets.
  destruct (handshake_burst_spec (Z.to_nat MAX_BURST_HANDSHAKES) wg) as [Hq _].
  rewrite Hq. unfold skb_queue_len. rewrite length_skipn. lia.
Qed.

(** X13: whatever datagrams arrive, whenever the worker runs and whatever
    the decryption pipeline completes, and in whatever order, a handshake
    queue that holds at most [MAX_QUEUED_HANDSHAKES + 1] buffers never holds
    more than that. *)
Theorem queue_never_beyond_capacity_plus_one (es : list entry) (wg : wireguard_device)
        (Hbound : skb_queue_len (incoming_handshakes wg) <= MAX_QUEUED_HANDSHAKES + 1) :
  skb_queue_len (incoming_handshakes (run es wg)) <= MAX_QUEUED_HANDSHAKES + 1.
Proof.
  revert wg Hbound. unfold run.
  induction es as [ | e es IH]; intros wg Hbound; [ exact Hbound | ].
  cbn [fold_left]. apply IH. destruct e as [skb | | skb peer addr unk err]; cbn [enter].
  - now apply packet_receive_queue_bound.
  - pose proof (worker_queue_shrinks wg). lia.
  - now rewrite receive_data_packet_queue.
Qed.

End EntryPaths.

Lemma queue_never_beyond_capacity_plus_one_witness :
  skb_queue_len (incoming_handshakes fresh_device) <= MAX_QUEUED_HANDSHAKES + 1 /\
  skb_queue_len
    (incoming_handshakes
       (run (K := no_cookie_script)
          [ datagram initiation_datagram; datagram short_udp_datagram;
            decrypted keepalive_packet (Some 1%positive) (Some outer_addr) false 0;
            datagram initiation_datagram; handshake_work ]
          fresh_device))
  <= MAX_QUEUED_HANDSHAKES + 1.
Proof.
  assert (Hbound : skb_queue_len (incoming_handshakes fresh_device)
                   <= MAX_QUEUED_HANDSHAKES + 1) by (vm_compute; discriminate).
  split; [ exact Hbound | ].
  exact (queue_never_beyond_capacity_plus_one (K := no_cookie_script) _ fresh_device
           Hbound).
Defined.

(** ** The data-packet callback: delivery and its accounting *)

Section Delivery.

Context {K : Collaborators}.

(** X14: a decrypted packet with an inner IP header whose source address
    the routing table gives to the authenticated peer is handed to the
    network stack, with its device, checksum state and protocol set, and is
    not freed by the callback; [last_rx] is set to [jiffies].  When the
    stack takes it, the packet and its length are counted for the device and
    for the peer and no error counter moves; when the stack refuses it, only
    [rx_dropped] goes up by one: [rx_errors], [rx_length_errors],
    [rx_frame_errors], the packet and byte counters and the byte counters of
    the peers stay.  In both cases the byte counters of the other peers and
    the handshake queue are left alone. *)
Theorem delivered_packet_accounting (wg : wireguard_device) (skb : sk_buff)
        (peer : peer_ptr) (addr : sockaddr_storage) (used_new_key : bool) (err : Z)
        (Herr : 0 <= err)
        (Hinner : has_inner_ip_header skb)
        (Hroute : routing_table_lookup_src (inner_skb skb) = Some peer) :
  let wg' := receive_data_packet wg skb (Some peer) (Some addr) used_new_key err in
  let ret := netif_rx (inner_skb skb) in
  new_calls wg wg' =
    (if used_new_key then [packet_send_queue peer] else []) ++
    [ timers_data_received peer;
      routing_table_lookup_src_call (inner_skb skb) (Some peer);
      peer_put_call (Some peer);
      netif_rx_call (inner_skb skb) ret;
      timers_any_authorized_packet_received peer;
      socket_set_peer_addr peer addr;
      peer_put_call (Some peer) ] /\
  count_calls is_kfree_skb (new_calls wg wg') = 0%nat /\
  last_rx wg' = jiffies /\
  (ret = NET_RX_SUCCESS ->
     rx_bytes (tstats wg') = to_u64 (rx_bytes (tstats wg) + skb_len skb) /\
     rx_packets (tstats wg') = to_u64 (rx_packets (tstats wg) + 1) /\
     peer_rx_bytes wg' peer = to_u64 (peer_rx_bytes wg peer + skb_len skb) /\
     stats wg' = stats wg) /\
  (ret <> NET_RX_SUCCESS ->
     rx_dropped (stats wg') = ulong_inc (rx_dropped (stats wg)) /\
     rx_errors (stats wg') = rx_errors (stats wg) /\
     rx_length_errors (stats wg') = rx_length_errors (stats wg) /\
     rx_frame_errors (stats wg') = rx_frame_errors (stats wg) /\
     tstats wg' = tstats wg /\
     peer_rx_bytes wg' = peer_rx_bytes wg) /\
  (forall q, q <> peer -> peer_rx_bytes wg' q = peer_rx_bytes wg q) /\
  incoming_handshakes wg' = incoming_handshakes wg.
Proof.
  intros wg' ret. subst wg'.
  rewrite receive_data_packet_routed by assumption.
  unfold receive_routed. rewrite Hroute. fold ret.
  cbn [peer_ptr_eqb]. rewrite Pos.eqb_refl. cbn [negb].
  destruct (Z.eqb_spec ret NET_RX_SUCCESS) as [Hret | Hret], used_new_key.
  all: split; [ apply new_calls_app; read_log; reflexivity | ].
  all: split; [ erewrite new_calls_app by (read_log; reflexivity); reflexivity | ].
  all: split; [ reflexivity | ].
  all: split;
    [ intros Heq; try contradiction; cbn; rewrite ?upd_same; repeat split; reflexivity | ].
  all: split;
    [ intros Hne; try contradiction; cbn; repeat split; reflexivity | ].
  all: split; [ | reflexivity ].
  all: intros q Hq; cbn; unfold upd;
    destruct (Pos.eqb_spec q peer); [ contradiction | reflexivity ].
Qed.

(** X15: a decrypted packet that is not empty and does not hold an inner IP
    header (shorter than 20 bytes, version byte not pullable, version
    neither 4 nor 6, or version 6 and shorter than 40 bytes) is freed, not
    delivered and not looked up in the routing table; [rx_errors] and
    [rx_length_errors] go up by one and no other counter moves.  The peer is
    still told that an authorized packet arrived. *)
Theorem malformed_inner_packet (wg : wireguard_device) (skb : sk_buff)
        (peer : peer_ptr) (addr : sockaddr_storage) (used_new_key : bool) (err : Z)
        (Herr : 0 <= err)
        (Hlen : skb_len skb <> 0)
        (Hbad : ~ has_inner_ip_header skb) :
  let wg' := receive_data_packet wg skb (Some peer) (Some addr) used_new_key err in
  (exists freed,
     new_calls wg wg' =
       (if used_new_key then [packet_send_queue peer] else []) ++
       [ dev_kfree_skb_call freed;
         timers_any_authorized_packet_received peer;
         socket_set_peer_addr peer addr;
         peer_put_call (Some peer) ] /\
     head freed = head skb /\ skb_len freed = skb_len skb) /\
  count_calls is_netif_rx (new_calls wg wg') = 0%nat /\
  count_calls is_routing_lookup (new_calls wg wg') = 0%nat /\
  count_calls is_timers_data_received (new_calls wg wg') = 0%nat /\
  rx_errors (stats wg') = ulong_inc (rx_errors (stats wg)) /\
  rx_length_errors (stats wg') = ulong_inc (rx_length_errors (stats wg)) /\
  rx_frame_errors (stats wg') = rx_frame_errors (stats wg) /\
  rx_dropped (stats wg') = rx_dropped (stats wg) /\
  tstats wg' = tstats wg /\
  peer_rx_bytes wg' = peer_rx_bytes wg /\
  last_rx wg' = last_rx wg.
Proof.
  assert (Hshape : forall freed w',
    calls w' = calls wg ++
      (if used_new_key then [packet_send_queue peer] else []) ++
      [ dev_kfree_skb_call freed;
        timers_any_authorized_packet_received peer;
        socket_set_peer_addr peer addr;
        peer_put_call (Some peer) ] ->
    head freed = head skb -> skb_len freed = skb_len skb ->
    stats w' = stats (count_length_error wg) -> tstats w' = tstats wg ->
    peer_rx_bytes w' = peer_rx_bytes wg -> last_rx w' = last_rx wg ->
    (exists freed,
       new_calls wg w' =
         (if used_new_key then [packet_send_queue peer] else []) ++
         [ dev_kfree_skb_call freed;
           timers_any_authorized_packet_received peer;
           socket_set_peer_addr peer addr;
           peer_put_call (Some peer) ] /\
       head freed = head skb /\ skb_len freed = skb_len skb) /\
    count_calls is_netif_rx (new_calls wg w') = 0%nat /\
    count_calls is_routing_lookup (new_calls wg w') = 0%nat /\
    count_calls is_timers_data_received (new_calls wg w') = 0%nat /\
    rx_errors (stats w') = ulong_inc (rx_errors (stats wg)) /\
    rx_length_errors (stats w') = ulong_inc (rx_length_errors (stats wg)) /\
    rx_frame_errors (stats w') = rx_frame_errors (stats wg) /\
    rx_dropped (stats w') = rx_dropped (stats wg) /\
    tstats w' = tstats wg /\
    peer_rx_bytes w' = peer_rx_bytes wg /\
    last_rx w' = last_rx wg).
  { intros freed w' Hcalls Hhead Hflen Hstats Htstats Hbytes Hlast.
    rewrite (new_calls_app _ _ _ Hcalls), Hstats.
    split; [ exists freed; repeat split; assumption | ].
    destruct used_new_key; repeat split; try reflexivity; assumption. }
  cbn zeta. unfold receive_data_packet.
  destruct (Z.ltb_spec err 0) as [ | _]; [ lia | ].
  destruct (Z.eqb_spec (skb_len skb) 0) as [ | _]; [ contradiction | ].
  destruct (Z.ltb_spec (skb_len skb) sizeof_iphdr) as [Hshort | Hlong].
  { apply (Hshape skb); try reflexivity; destruct used_new_key; read_log; reflexivity. }
  destruct (pskb_may_pull skb 1) eqn:Hpull; cbn [negb].
  2: { apply (Hshape skb); try reflexivity; destruct used_new_key; read_log; reflexivity. }
  rewrite ip_hdr_version_prepared. cbn [skb_len set_ip_summed set_skb_dev].
  destruct (Z.eqb_spec (ip_hdr_version skb) 4) as [H4 | H4].
  { exfalso. apply Hbad. repeat split; auto. }
  destruct (Z.eqb_spec (ip_hdr_version skb) 6) as [H6 | H6].
  - destruct (Z.ltb_spec (skb_len skb) sizeof_ipv6hdr) as [Hshort6 | Hlong6].
    + apply (Hshape (set_ip_summed CHECKSUM_UNNECESSARY (set_skb_dev skb)));
        try reflexivity; destruct used_new_key; read_log; reflexivity.
    + exfalso. apply Hbad. repeat split; auto.
  - apply (Hshape (set_ip_summed CHECKSUM_UNNECESSARY (set_skb_dev skb)));
      try reflexivity; destruct used_new_key; read_log; reflexivity.
Qed.

(** X16: whenever the callback does not return early, the peer is told
    exactly once that an authorized packet arrived and its address is set
    exactly once, to the address the pipeline reported; this holds for
    keep-alives, malformed inner packets and routing violations as well as
    for delivered packets.  The send queue of the peer is flushed exactly
    when the packet was the first under a new key, and before anything
    else. *)
Theorem authentic_packet_acknowledged (wg : wireguard_device) (skb : sk_buff)
        (peer : peer_ptr) (addr : sockaddr_storage) (used_new_key : bool) (err : Z)
        (Herr : 0 <= err) :
  let log :=
    new_calls wg (receive_data_packet wg skb (Some peer) (Some addr) used_new_key err) in
  filter is_timers_any_authorized log = [timers_any_authorized_packet_received peer] /\
  filter is_addr_update log = [socket_set_peer_addr peer addr] /\
  filter is_send_queue log = (if used_new_key then [packet_send_queue peer] else []) /\
  (used_new_key = true -> hd_error log = Some (packet_send_queue peer)).
Proof.
  cbn zeta. unfold receive_data_packet, receive_routed.
  destruct (Z.ltb_spec err 0) as [ | _]; [ lia | ].
  repeat match goal with
         | |- context [if ?c then _ else _] => destruct c
         end;
    try destruct (routing_table_lookup_src _);
    unfold new_calls; read_log;
    rewrite ?skipn_app, ?skipn_all, ?Nat.sub_diag; cbn [skipn app];
    repeat split; try reflexivity; intros Hkey; discriminate Hkey.
Qed.

End Delivery.

Lemma delivered_packet_accounting_witness :
  0 <= 0 /\
  has_inner_ip_header (K := routing_script (Some 1%positive)) inner_ipv4_packet /\
  routing_table_lookup_src (Collaborators := routing_script (Some 1%positive))
    (inner_skb inner_ipv4_packet) = Some 1%positive /\
  count_calls is_kfree_skb
    (new_calls fresh_device
       (receive_data_packet (K := routing_script (Some 1%positive)) fresh_device
          inner_ipv4_packet (Some 1%positive) (Some outer_addr) false 0)) = 0%nat.
Proof.
  split; [ lia | split; [ exact inner_ipv4_packet_has_header_routed
                        | split; [ reflexivity | ] ] ].
  exact (proj1 (proj2
           (delivered_packet_accounting (K := routing_script (Some 1%positive))
              fresh_device inner_ipv4_packet 1%positive outer_addr false 0
              (Z.le_refl 0) inner_ipv4_packet_has_header_routed eq_refl))).
Defined.

(** A packet taken by the network stack is counted with its 28 bytes. *)
Example delivered_packet_counted :
  tstats (receive_data_packet (K := routing_script (Some 1%positive)) fresh_device
            inner_ipv4_packet (Some 1%positive) (Some outer_addr) false 0)
  = mk_tstats 28 1.
Proof. vm_compute. reflexivity. Qed.

Lemma four_bytes_no_inner_header :
  ~ has_inner_ip_header (K := routing_script (Some 1%positive))
      (mk_skb 4 [x45; x00; x00; x04] 0 0 0 false 0 0).
Proof.
  intros [Hlen _]. vm_compute in Hlen. apply Hlen. reflexivity.
Defined.

Lemma malformed_inner_packet_witness :
  0 <= 0 /\
  skb_len (mk_skb 4 [x45; x00; x00; x04] 0 0 0 false 0 0) <> 0 /\
  ~ has_inner_ip_header (K := routing_script (Some 1%positive))
      (mk_skb 4 [x45; x00; x00; x04] 0 0 0 false 0 0) /\
  count_calls is_netif_rx
    (new_calls fresh_device
       (receive_data_packet (K := routing_script (Some 1%positive)) fresh_device
          (mk_skb 4 [x45; x00; x00; x04] 0 0 0 false 0 0)
          (Some 1%positive) (Some outer_addr) false 0)) = 0%nat.
Proof.
  assert (Hlen : skb_len (mk_skb 4 [x45; x00; x00; x04] 0 0 0 false 0 0) <> 0)
    by (cbn; discriminate).
  split; [ lia | split; [ exact Hlen | split; [ exact four_bytes_no_inner_header | ] ] ].
  exact (proj1 (proj2
           (malformed_inner_packet (K := routing_script (Some 1%positive))
              fresh_device (mk_skb 4 [x45; x00; x00; x04] 0 0 0 false 0 0)
              1%positive outer_addr false 0
              (Z.le_refl 0) Hlen four_bytes_no_inner_header))).
Defined.

Lemma authentic_packet_acknowledged_witness :
  0 <= 0 /\
  filter is_addr_update
    (new_calls fresh_device
       (receive_data_packet (K := routing_script (Some 2%positive)) fresh_device
          inner_ipv4_packet (Some 1%positive) (Some outer_addr) true 0))
  = [socket_set_peer_addr 1%positive outer_addr].
Proof.
  split; [ lia | ].
  exact (proj1 (proj2
           (authentic_packet_acknowledged (K := routing_script (Some 2%positive))
              fresh_device inner_ipv4_packet 1%positive outer_addr true 0
              (Z.le_refl 0)))).
Defined.

Lemma delivery_only_when_routed_witness :
  count_calls is_netif_rx
    (new_calls fresh_device
       (receive_data_packet (K := routing_script (Some 1%positive)) fresh_device
          inner_ipv4_packet (Some 1%positive) (Some outer_addr) false 0)) <> 0%nat /\
  exists p,
    Some 1%positive = Some p /\
    routing_table_lookup_src (Collaborators := routing_script (Some 1%positive))
      (inner_skb inner_ipv4_packet) = Some p.
Proof.
  assert (Hdelivered :
    count_calls is_netif_rx
      (new_calls fresh_device
         (receive_data_packet (K := routing_script (Some 1%positive)) fresh_device
            inner_ipv4_packet (Some 1%positive) (Some outer_addr) false 0)) <> 0%nat)
    by (vm_compute; discriminate).
  split; [ exact Hdelivered | ].
  exact (delivery_only_when_routed (K := routing_script (Some 1%positive))
           fresh_device inner_ipv4_packet (Some 1%positive) (Some outer_addr) false 0
           Hdelivered).
Defined.

(** ** The handshake handler: dropped messages *)

Section Dropped.

Context {K : Collaborators}.

(** X18: a message that is not a cookie reply and that the decision drops
    (an invalid MAC, or a MAC with cookie when not under load) costs the
    cookie check and nothing more: no consumer is called, no cookie reply or
    response is sent, and the device is otherwise as it was. *)
Theorem dropped_handshake_leaves_no_trace (wg : wireguard_device) (data : list byte)
        (len : Z) (skb : sk_buff)
        (Hkind : message_determine_type data len <> MESSAGE_HANDSHAKE_COOKIE)
        (Hdrop : decision_matrix_amended (under_load wg)
                   (cookie_validate_packet skb data len (under_load wg)) = Drop) :
  let wg' := receive_handshake_packet wg data len skb in
  new_calls wg wg' =
    [ cookie_validate_packet_call skb len (under_load wg)
        (cookie_validate_packet skb data len (under_load wg)) ] /\
  tstats wg' = tstats wg /\
  stats wg' = stats wg /\
  peer_rx_bytes wg' = peer_rx_bytes wg /\
  peer_refcount wg' = peer_refcount wg /\
  incoming_handshakes wg' = incoming_handshakes wg.
Proof.
  cbn zeta. unfold receive_handshake_packet.
  destruct (message_determine_type data len); try congruence;
    destruct (under_load wg), (cookie_validate_packet _ _ _ _);
    cbn in Hdrop; try discriminate Hdrop;
    cbn [mac_state_eqb andb orb negb];
    (split; [ apply new_calls_app; reflexivity | repeat split; reflexivity ]).
Qed.

End Dropped.

Lemma dropped_handshake_leaves_no_trace_witness :
  message_determine_type
    (Collaborators := scripted INVALID_MAC (Some 1%positive) true None NET_RX_SUCCESS)
    (skb_payload initiation_datagram 28) 148 <> MESSAGE_HANDSHAKE_COOKIE /\
  new_calls fresh_device
    (receive_handshake_packet
       (K := scripted INVALID_MAC (Some 1%positive) true None NET_RX_SUCCESS)
       fresh_device (skb_payload initiation_datagram 28) 148 initiation_datagram)
  = [cookie_validate_packet_call initiation_datagram 148 false INVALID_MAC].
Proof.
  assert (Hkind :
    message_determine_type
      (Collaborators := scripted INVALID_MAC (Some 1%positive) true None NET_RX_SUCCESS)
      (skb_payload initiation_datagram 28) 148 <> MESSAGE_HANDSHAKE_COOKIE)
    by (vm_compute; discriminate).
  split; [ exact Hkind | ].
  exact (proj1
           (dropped_handshake_leaves_no_trace
              (K := scripted INVALID_MAC (Some 1%positive) true None NET_RX_SUCCESS)
              fresh_device (skb_payload initiation_datagram 28) 148 initiation_datagram
              Hkind eq_refl)).
Defined.
